(** * OneDrive Custom Backup Tool: relocation with ledger-driven rollback

    A shallow embedding of [src/core/backup.py], [src/core/rollback.py] and
    [src/utils/paths.py].  The Python methods become functions in a small
    state monad over a [world] that holds the filesystem, the persisted
    rollback file, the in-memory [rollback_data] attribute and the trace of
    operating-system interactions.  Everything the program delegates to the
    operating system (PowerShell commands, [subprocess], [shutil], file
    permissions, the clock) is a field of the record [OS], so the theorems
    hold for every behaviour of the platform; a concrete [ideal_os] is used
    to evaluate the program on examples. *)

From Stdlib Require Import Ascii.
From stdpp Require Import gmap strings list.

(** ** Strings *)

(** [not s or not s.strip()]: the string is empty or whitespace only.
    Strings are ASCII here and the blanks are the six ASCII ones. *)
Fixpoint all_space (s : string) : bool :=
  match s with
  | EmptyString => true
  | String c s' => Ascii.is_space c && all_space s'
  end.

Fixpoint lstrip (s : string) : string :=
  match s with
  | EmptyString => EmptyString
  | String c s' => if Ascii.is_space c then lstrip s' else s
  end.

(** [s.strip()] *)
Definition strip (s : string) : string :=
  String.rev (lstrip (String.rev (lstrip s))).

(** [needle in hay] *)
Fixpoint contains (needle hay : string) : bool :=
  String.prefix needle hay ||
  match hay with
  | EmptyString => false
  | String _ hay' => contains needle hay'
  end.

(** ** pathlib paths

    A [Path] object is its tuple of parts.  Paths are absolute and written
    in POSIX style; both separators are accepted by the parser, as on
    Windows.  A relative path is read from the root, and [.] and [..] are
    names like any other. *)

Abbreviation path := (list string).

Definition is_sep (c : ascii) : bool :=
  match c with
  | "/"%char | "\"%char => true
  | _ => false
  end.

Definition flush (cur : string) : path :=
  match cur with
  | EmptyString => []
  | _ => [String.rev cur]
  end.

Fixpoint split_go (cur : string) (s : string) : path :=
  match s with
  | EmptyString => flush cur
  | String c s' =>
      if is_sep c then flush cur ++ split_go EmptyString s'
      else split_go (String c cur) s'
  end.

(** [Path(s)] *)
Definition Path (s : string) : path := split_go EmptyString s.

(** [str(p)] *)
Definition str (p : path) : string :=
  match p with
  | [] => "/"
  | _ => foldr (λ c acc, "/" +:+ c +:+ acc) EmptyString p
  end.

(** [p.name] *)
Definition name (p : path) : string := default EmptyString (last p).

(** [p.parent] *)
Definition parent (p : path) : path := removelast p.

(** [p / n]; joining the empty name leaves the path as it is. *)
Definition join (p : path) (n : string) : path :=
  match n with
  | EmptyString => p
  | _ => p ++ [n]
  end.

(** ** The filesystem *)

Inductive link_type := Junction | SymbolicLink.

Inductive node :=
  | NFile
  | NDir (files : list string)
  | NLink (lt : link_type) (target : path).

Global Instance link_type_eq_dec : EqDecision link_type.
Proof. solve_decision. Defined.

Global Instance node_eq_dec : EqDecision node.
Proof. solve_decision. Defined.

Abbreviation filesystem := (gmap path node).

(** Links are followed one level, at the final component. *)
Definition follow (f : filesystem) (p : path) : option node :=
  match f !! p with
  | Some (NLink _ t) =>
      match f !! t with
      | Some (NLink _ _) => None
      | o => o
      end
  | o => o
  end.

(** [p.exists()] *)
Definition exists_ (f : filesystem) (p : path) : bool :=
  match follow f p with
  | Some _ => true
  | None => false
  end.

(** [p.is_dir()] *)
Definition is_dir (f : filesystem) (p : path) : bool :=
  match follow f p with
  | Some (NDir _) => true
  | _ => false
  end.

(** [p.is_file()] *)
Definition is_file (f : filesystem) (p : path) : bool :=
  match follow f p with
  | Some NFile => true
  | _ => false
  end.

(** [p.is_symlink()]: the path itself is a symbolic link.  A junction is
    a reparse point of another kind: pathlib does not report it as a
    symbolic link, although [readlink] reads its target. *)
Definition is_symlink (f : filesystem) (p : path) : bool :=
  match f !! p with
  | Some (NLink SymbolicLink _) => true
  | _ => false
  end.

(** [p.readlink()]; [None] stands for the [OSError] on a non-link. *)
Definition readlink (f : filesystem) (p : path) : option path :=
  match f !! p with
  | Some (NLink _ t) => Some t
  | _ => None
  end.

(** [p.resolve()]: a link at the final component is replaced by its
    target; links further up the path are not followed. *)
Definition resolve (f : filesystem) (p : path) : path :=
  match f !! p with
  | Some (NLink _ t) => t
  | _ => p
  end.

(** ** The operating system *)

(** Read-only PowerShell commands issued through [run_command]. *)
Inductive query :=
  | GetItemLinkType (p : string)   (* Get-Item 'p' | Where-Object {$_.LinkType -eq 'Junction'} *)
  | GetItemTarget (p : string).    (* Get-Item 'p' | Select-Object -ExpandProperty Target *)

(** PowerShell commands that change the filesystem. *)
Inductive command :=
  | MoveItem (src dst : string)         (* Move-Item "src" "dst" -Force *)
  | Robocopy (src dst : string)         (* robocopy "src" "dst" /E /MOVE /R:3 /W:10 /MT:8 *)
  | RemoveItem (p : string)             (* Remove-Item "p" -Recurse -Force *)
  | NewItemJunction (p tgt : string).   (* New-Item -ItemType Junction -Path "p" -Target "tgt" *)

(** Commands run with [subprocess.run(..., shell=True)]. *)
Inductive shell_command :=
  | Rmdir (p : string)                  (* rmdir "p" *)
  | Mklink (p tgt : string).            (* mklink /J "p" "tgt" *)

(** Outcome of [p.iterdir()]. *)
Inductive iter_result :=
  | IterOk (nonempty : bool)
  | IterPermissionError
  | IterError (msg : string).

Record OS := {
  (** [PowerShellExecutor.run_command] on a query: (success, stdout) *)
  run_query : query → filesystem → bool * string;
  (** [PowerShellExecutor.run_command]: (success, stdout, stderr) and the
      filesystem the command leaves *)
  run_command : command → filesystem → (bool * string * string) * filesystem;
  (** [subprocess.run]: [returncode == 0] and the filesystem left *)
  subprocess_run : shell_command → filesystem → bool * filesystem;
  (** [shutil.move(src, dst)]; [None] when it raises *)
  shutil_move : path → path → filesystem → option filesystem;
  (** [p.mkdir(parents=True, exist_ok=True)]; [None] when it raises *)
  mkdir_parents : path → filesystem → option filesystem;
  (** [os.access(p, os.R_OK)] and [os.access(p, os.W_OK)] *)
  access_r : path → bool;
  access_w : path → bool;
  iterdir : path → iter_result;
  (** free bytes on the volume of a directory; [None] when the call raises *)
  free_bytes : path → option N;
  (** whether opening and writing [rollback.json] succeeds *)
  json_dump_ok : bool;
  (** whether [rollback_file.unlink()] succeeds *)
  unlink_ok : bool;
  (** [datetime.now().isoformat()] *)
  now : string;
}.

(** ** The rollback record *)

Record rollback_record := {
  rd_source : string;
  rd_target : string;
  source_existed : bool;
  target_existed : bool;
  source_is_junction : bool;
  backup_created : bool;
  junction_created : bool;
  timestamp : string;
  original_junction_target : option string;
}.

Global Instance rollback_record_eq_dec : EqDecision rollback_record.
Proof. solve_decision. Defined.

Definition set_status (bc jc : bool) (r : rollback_record) : rollback_record :=
  {| rd_source := rd_source r;
     rd_target := rd_target r;
     source_existed := source_existed r;
     target_existed := target_existed r;
     source_is_junction := source_is_junction r;
     backup_created := bc;
     junction_created := jc;
     timestamp := timestamp r;
     original_junction_target := original_junction_target r |}.

(** ** The world and its monad *)

Inductive level := INFO | WARNING | ERROR.

Inductive event :=
  | EvQuery (q : query)
  | EvCommand (c : command)
  | EvShell (c : shell_command)
  | EvMkdir (p : path)
  | EvShutilMove (src dst : path)
  | EvJsonDump (r : rollback_record)     (* rollback.json written *)
  | EvUnlink                             (* rollback.json removed *)
  | EvLog (l : level) (msg : string).    (* outcome lines of the rollback manager *)

(** [trace] lists the events most recent first. *)
Record world := World {
  fs : filesystem;
  rollback_file : option rollback_record;
  rollback_data : option rollback_record;
  trace : list event;
}.

Definition M (A : Type) : Type := world → A * world.

Global Instance M_ret : MRet M := λ A a w, (a, w).

Global Instance M_bind : MBind M := λ A B k m w,
  match m w with
  | (a, w') => k a w'
  end.

Definition get_fs : M filesystem := λ w, (fs w, w).

Definition emit (e : event) : M unit := λ w,
  (tt, World (fs w) (rollback_file w) (rollback_data w) (e :: trace w)).

Definition put_fs (f : filesystem) : M unit := λ w,
  (tt, World f (rollback_file w) (rollback_data w) (trace w)).

Definition put_rollback_data (d : option rollback_record) : M unit := λ w,
  (tt, World (fs w) (rollback_file w) d (trace w)).

Definition put_rollback_file (d : option rollback_record) : M unit := λ w,
  (tt, World (fs w) d (rollback_data w) (trace w)).

Definition get_rollback_data : M (option rollback_record) := λ w, (rollback_data w, w).

Definition get_rollback_file : M (option rollback_record) := λ w, (rollback_file w, w).

(** A query leaves the filesystem alone. *)
Definition ps_query (os : OS) (q : query) : M (bool * string) :=
  f ← get_fs;
  emit (EvQuery q);;
  mret (run_query os q f).

Definition ps_command (os : OS) (c : command) : M (bool * string * string) :=
  f ← get_fs;
  emit (EvCommand c);;
  put_fs (run_command os c f).2;;
  mret (run_command os c f).1.

Definition shell (os : OS) (c : shell_command) : M bool :=
  f ← get_fs;
  emit (EvShell c);;
  put_fs (subprocess_run os c f).2;;
  mret (subprocess_run os c f).1.

(** The two library calls that may raise return whether they completed. *)
Definition mkdir (os : OS) (p : path) : M bool :=
  f ← get_fs;
  emit (EvMkdir p);;
  match mkdir_parents os p f with
  | Some f' => put_fs f';; mret true
  | None => mret false
  end.

Definition move (os : OS) (src dst : path) : M bool :=
  f ← get_fs;
  emit (EvShutilMove src dst);;
  match shutil_move os src dst f with
  | Some f' => put_fs f';; mret true
  | None => mret false
  end.

(** ** utils/paths.py *)

Module PathUtils.

(** [_check_disk_space(path, min_space_mb=100)]: free megabytes against the
    minimum; a failing check assumes sufficient space. *)
Definition _check_disk_space (os : OS) (p : path) : bool :=
  match free_bytes os p with
  | Some b => bool_decide (100 * 1024 * 1024 ≤ b)%N
  | None => true
  end.

Definition validate_source_path (os : OS) (f : filesystem) (p : string)
    : bool * string :=
  if all_space p then (false, "Source path cannot be empty") else
  let source_path := Path p in
  if negb (exists_ f source_path) then (false, "Source path does not exist") else
  if negb (is_dir f source_path) then (false, "Source path must be a directory") else
  if negb (access_r os source_path) then (false, "No read permission for source path") else
  match iterdir os source_path with
  | IterPermissionError =>
      (false, "Source path is not accessible (permission denied)")
  | IterError e => (false, "Source path is not accessible: " +:+ e)
  | IterOk _ =>
      if bool_decide (260 < String.length (str (resolve f source_path)))
      then (false, "Source path is too long (Windows path limit: 260 characters)")
      else (true, EmptyString)
  end.

Definition validate_target_path (os : OS) (f : filesystem) (p : string)
    : bool * string :=
  if all_space p then (false, "Target path cannot be empty") else
  let target_path := Path p in
  let contents :=
    if exists_ f target_path then
      if is_file f target_path then Some (false, "Target path is a file, not a directory")
      else match iterdir os target_path with
           | IterPermissionError =>
               Some (false, "Cannot access target directory to check contents")
           | IterError e => Some (false, "Path validation error: " +:+ e)
           | IterOk _ => None
           end
    else None in
  match contents with
  | Some rejected => rejected
  | None =>
      let parent_dir := parent target_path in
      if negb (exists_ f parent_dir)
      then (false, "Target parent directory does not exist") else
      if negb (access_w os parent_dir)
      then (false, "No write permission for target parent directory") else
      if negb (_check_disk_space os parent_dir)
      then (false, "Insufficient disk space at target location") else
      if bool_decide (260 < String.length (str (resolve f target_path)))
      then (false, "Target path is too long (Windows path limit: 260 characters)")
      else (true, EmptyString)
  end.

(** The junction test of the path utilities asks PowerShell; this is the
    answer [is_junction] gives on a filesystem. *)
Definition is_junction_of (os : OS) (f : filesystem) (p : string) : bool :=
  if bool_decide (p = EmptyString) || negb (exists_ f (Path p)) then false else
  let '(success, output) := run_query os (GetItemLinkType p) f in
  success && negb (all_space output).

Definition is_junction (os : OS) (p : string) : M bool :=
  f ← get_fs;
  if bool_decide (p = EmptyString) || negb (exists_ f (Path p)) then mret false else
  '(success, output) ← ps_query os (GetItemLinkType p);
  if success && negb (all_space output) then mret true else mret false.

Definition get_junction_target (os : OS) (p : string) : M (option string) :=
  j ← is_junction os p;
  if negb j then mret None else
  '(success, output) ← ps_query os (GetItemTarget p);
  if success && negb (all_space output) then mret (Some (strip output))
  else mret None.

End PathUtils.

(** ** core/rollback.py *)

Module RollbackManager.

(** The rollback manager tests for a junction with pathlib: a directory
    that is a symbolic link. *)
Definition _is_junction (f : filesystem) (p : path) : bool :=
  is_dir f p && is_symlink f p.

Definition _get_junction_target (f : filesystem) (p : path) : option string :=
  if _is_junction f p then str <$> readlink f p else None.

(** Writing [rollback.json]; a failure to open or write raises. *)
Definition json_dump (os : OS) (r : rollback_record) : M bool :=
  if json_dump_ok os
  then put_rollback_file (Some r);; emit (EvJsonDump r);; mret true
  else mret false.

(** The dictionary built on lines 42-56 of [create_rollback_point]. *)
Definition snapshot (os : OS) (f : filesystem) (source target : string)
    : rollback_record :=
  let source_path := Path source in
  let target_path := Path target in
  let sj := _is_junction f source_path in
  {| rd_source := str (resolve f source_path);
     rd_target := str (resolve f target_path);
     source_existed := exists_ f source_path;
     target_existed := exists_ f target_path;
     source_is_junction := sj;
     backup_created := false;
     junction_created := false;
     timestamp := now os;
     original_junction_target :=
       if sj then _get_junction_target f source_path else None |}.

Definition create_rollback_point (os : OS) (source target : string) : M bool :=
  f ← get_fs;
  put_rollback_data (Some (snapshot os f source target));;
  json_dump os (snapshot os f source target).

Definition update_rollback_status (os : OS) (bc jc : bool) : M unit :=
  d ← get_rollback_data;
  match d with
  | Some r =>
      put_rollback_data (Some (set_status bc jc r));;
      json_dump os (set_status bc jc r);;
      mret tt
  | None => mret tt
  end.

Definition _remove_junction (os : OS) (junction_path : path) : M bool :=
  f ← get_fs;
  if exists_ f junction_path && _is_junction f junction_path
  then shell os (Rmdir (str junction_path))
  else mret true.

Definition _move_back_from_target (os : OS) (source_path target_path : path)
    : M bool :=
  f ← get_fs;
  if exists_ f target_path then
    made ← mkdir os (parent source_path);
    if negb made then mret false else
    move os target_path source_path
  else mret true.

Definition _restore_junction (os : OS) (source_path : path) (target : string)
    : M bool :=
  shell os (Mklink (str source_path) target).

(** The record to roll back: the one in memory, else the one on disk. *)
Definition load : M (option rollback_record) :=
  d ← get_rollback_data;
  match d with
  | Some r => mret (Some r)
  | None =>
      file ← get_rollback_file;
      match file with
      | Some r => put_rollback_data (Some r);; mret (Some r)
      | None => emit (EvLog WARNING "No rollback data available");; mret None
      end
  end.

Definition rollback (os : OS) : M bool :=
  d ← load;
  match d with
  | None => mret false
  | Some r =>
      let source_path := Path (rd_source r) in
      let target_path := Path (rd_target r) in
      s1 ← (if junction_created r then _remove_junction os source_path
            else mret true);
      s2 ← (if backup_created r
            then _move_back_from_target os source_path target_path
            else mret true);
      s3 ← (if source_is_junction r then
              match original_junction_target r with
              | Some original_target =>
                  if bool_decide (original_target = EmptyString) then mret true
                  else _restore_junction os source_path original_target
              | None => mret true
              end
            else mret true);
      let success := true && s1 && s2 && s3 in
      (if success then emit (EvLog INFO "Rollback completed successfully")
       else emit (EvLog ERROR "Rollback completed with errors"));;
      mret success
  end.

Definition clear_rollback_point (os : OS) : M unit :=
  put_rollback_data None;;
  file ← get_rollback_file;
  match file with
  | Some _ =>
      if unlink_ok os then put_rollback_file None;; emit EvUnlink
      else mret tt
  | None => mret tt
  end.

End RollbackManager.

(** ** core/backup.py *)

Module BackupManager.

Definition validate_paths (os : OS) (source target : string) : M (bool * string) :=
  f ← get_fs;
  let '(source_valid, source_error) := PathUtils.validate_source_path os f source in
  if negb source_valid then mret (false, "Source path error: " +:+ source_error) else
  let '(target_valid, target_error) := PathUtils.validate_target_path os f target in
  if negb target_valid then mret (false, "Target path error: " +:+ target_error) else
  j ← PathUtils.is_junction os source;
  if (j : bool) then mret (false, "Source path is already a junction link")
  else mret (true, EmptyString).

(** Lines 92-102 of [execute_backup]: the actual target string. *)
Definition actual_target_str (f : filesystem) (source target : string) : string :=
  let source_path := Path source in
  let target_path := Path target in
  if exists_ f target_path && is_dir f target_path
  then str (join target_path (name source_path))
  else target.

(** Lines 155-165 of [_move_folder]: the final target path and string. *)
Definition final_target_path (f : filesystem) (source target : string) : path :=
  let source_path := Path source in
  let target_path := Path target in
  if exists_ f target_path && is_dir f target_path
  then join target_path (name source_path)
  else target_path.

Definition final_target_str (f : filesystem) (source target : string) : string :=
  let target_path := Path target in
  if exists_ f target_path && is_dir f target_path
  then str (final_target_path f source target)
  else target.

Definition _move_folder (os : OS) (source target : string) : M bool :=
  f ← get_fs;
  let source_path := Path source in
  let target_path := final_target_path f source target in
  let target := final_target_str f source target in
  let target_parent := parent target_path in
  made ← (if negb (exists_ f target_parent) then mkdir os target_parent
          else mret true);
  if negb made then mret false else
  f ← get_fs;
  if exists_ f target_path then mret false else
  '(success, stdout, stderr) ← ps_command os (MoveItem source target);
  if (success : bool) then
    f ← get_fs;
    if negb (exists_ f target_path) then mret false else
    if exists_ f source_path then mret false else
    mret true
  else
    '(success, stdout, stderr) ← ps_command os (Robocopy source target);
    if success || negb (contains "ERROR" stderr) then
      f ← get_fs;
      if exists_ f target_path && negb (exists_ f source_path) then mret true
      else if exists_ f target_path && exists_ f source_path then
        '(remove_success, remove_out, remove_error) ← ps_command os (RemoveItem source);
        f ← get_fs;
        if remove_success || negb (exists_ f (Path source)) then mret true
        else mret false
      else mret false
    else mret false.

Definition _create_junction (os : OS) (source target : string) : M bool :=
  '(success, stdout, stderr) ← ps_command os (NewItemJunction source target);
  if negb success then mret false else
  j ← PathUtils.is_junction os source;
  if negb j then mret false else mret true.

Definition _verify_backup (os : OS) (source target : string) : M bool :=
  j ← PathUtils.is_junction os source;
  if negb j then mret false else
  f ← get_fs;
  if negb (exists_ f (Path target)) then mret false else
  jt ← PathUtils.get_junction_target os source;
  match jt with
  | None => mret false
  | Some junction_target =>
      if bool_decide (junction_target = EmptyString) then mret false else
      f ← get_fs;
      if bool_decide (resolve f (Path junction_target) ≠ resolve f (Path target))
      then mret false
      else mret true
  end.

(** [execute_backup] without a progress callback. *)
Definition execute_backup (os : OS) (source target : string) : M bool :=
  '(is_valid, error_msg) ← validate_paths os source target;
  if negb is_valid then mret false else
  f ← get_fs;
  let actual_target_str := actual_target_str f source target in
  RollbackManager.create_rollback_point os source actual_target_str;;
  move_success ← _move_folder os source target;
  if negb move_success then RollbackManager.rollback os;; mret false else
  junction_success ← _create_junction os source actual_target_str;
  if negb junction_success then RollbackManager.rollback os;; mret false else
  verified ← _verify_backup os source actual_target_str;
  if negb verified then RollbackManager.rollback os;; mret false else
  RollbackManager.clear_rollback_point os;;
  mret true.

End BackupManager.

(** ** A platform to run the program on

    [ideal_os] gives every command its documented effect on the flat
    filesystem: a move renames one entry, a junction is a new link entry,
    and nothing is denied.  The variants below inject the failures the
    scenarios need. *)

Module Platform.

Definition move_node (src dst : path) (f : filesystem) : option filesystem :=
  match f !! src, f !! dst with
  | Some n, None => Some (<[dst := n]> (delete src f))
  | _, _ => None
  end.

Definition ideal_query (q : query) (f : filesystem) : bool * string :=
  match q with
  | GetItemLinkType p =>
      match f !! Path p with
      | Some (NLink Junction _) => (true, "Junction")
      | Some _ => (true, EmptyString)
      | None => (false, EmptyString)
      end
  | GetItemTarget p =>
      match f !! Path p with
      | Some (NLink _ t) => (true, str t)
      | Some _ => (true, EmptyString)
      | None => (false, EmptyString)
      end
  end.

Definition succeeded (f : filesystem) : (bool * string * string) * filesystem :=
  ((true, EmptyString, EmptyString), f).

Definition failed (f : filesystem) : (bool * string * string) * filesystem :=
  ((false, EmptyString, "ERROR: the command failed"), f).

Definition ideal_command (c : command) (f : filesystem)
    : (bool * string * string) * filesystem :=
  match c with
  | MoveItem s d | Robocopy s d =>
      match move_node (Path s) (Path d) f with
      | Some f' => succeeded f'
      | None => failed f
      end
  | RemoveItem p =>
      match f !! Path p with
      | Some _ => succeeded (delete (Path p) f)
      | None => failed f
      end
  | NewItemJunction p t =>
      match f !! Path p with
      | None => succeeded (<[Path p := NLink Junction (Path t)]> f)
      | Some _ => failed f
      end
  end.

Definition ideal_shell (c : shell_command) (f : filesystem) : bool * filesystem :=
  match c with
  | Rmdir p =>
      match f !! Path p with
      | Some (NLink _ _) | Some (NDir []) => (true, delete (Path p) f)
      | _ => (false, f)
      end
  | Mklink p t =>
      match f !! Path p with
      | None => (true, <[Path p := NLink Junction (Path t)]> f)
      | Some _ => (false, f)
      end
  end.

Fixpoint ideal_mkdir_go (done_part rest : path) (f : filesystem) : filesystem :=
  match rest with
  | [] => f
  | c :: rest' =>
      let p := done_part ++ [c] in
      ideal_mkdir_go p rest'
        (match f !! p with Some _ => f | None => <[p := NDir []]> f end)
  end.

Definition ideal_os : OS :=
  {| run_query := ideal_query;
     run_command := ideal_command;
     subprocess_run := ideal_shell;
     shutil_move := move_node;
     mkdir_parents := λ p f, Some (ideal_mkdir_go [] p f);
     access_r := λ _, true;
     access_w := λ _, true;
     iterdir := λ _, IterOk true;
     free_bytes := λ _, Some (2 ^ 40)%N;
     json_dump_ok := true;
     unlink_ok := true;
     now := "2025-01-01T00:00:00" |}.

(** The same platform with Move-Item and robocopy denied. *)
Definition move_denied_command (c : command) (f : filesystem)
    : (bool * string * string) * filesystem :=
  match c with
  | MoveItem _ _ | Robocopy _ _ => failed f
  | _ => ideal_command c f
  end.

Definition move_denied_os : OS :=
  {| run_query := ideal_query;
     run_command := move_denied_command;
     subprocess_run := ideal_shell;
     shutil_move := move_node;
     mkdir_parents := λ p f, Some (ideal_mkdir_go [] p f);
     access_r := λ _, true;
     access_w := λ _, true;
     iterdir := λ _, IterOk true;
     free_bytes := λ _, Some (2 ^ 40)%N;
     json_dump_ok := true;
     unlink_ok := true;
     now := "2025-01-01T00:00:00" |}.

Definition start (f : filesystem) : world := World f None None [].

(** Scenario 1 of the specification. *)
Definition fs_tmp : filesystem :=
  {[ ["tmp"] := NDir [];
     ["tmp"; "proj"] := NDir ["a.txt"; "b.txt"];
     ["tmp"; "onedrive"] := NDir [] ]}.

(** The nesting scenario: the target is an existing directory. *)
Definition fs_cloud : filesystem :=
  {[ ["work"] := NDir [];
     ["work"; "proj"] := NDir ["main.c"];
     ["cloud"] := NDir [];
     ["cloud"; "backup"] := NDir ["notes.txt"] ]}.

(** The nesting scenario with the effective target already taken. *)
Definition fs_occupied : filesystem :=
  <[ ["cloud"; "backup"; "proj"] := NDir ["old.txt"] ]> fs_cloud.


Fixpoint pad (n : nat) : string :=
  match n with
  | 0 => EmptyString
  | S n' => String "a"%char (pad n')
  end.

(** An existing target directory of 252 characters. *)
Definition long_target : string := "/cloud/" +:+ pad 245.

Definition fs_long : filesystem :=
  {[ ["work"] := NDir [];
     ["work"; "a-project-directory"] := NDir ["main.c"];
     ["cloud"] := NDir [];
     ["cloud"; pad 245] := NDir [] ]}.

(** The state in which a finished relocation of scenario 1 would be rolled
    back, with a record whose flags are set. *)
Definition fs_relocated : filesystem :=
  {[ ["tmp"] := NDir [];
     ["tmp"; "proj"] := NLink Junction ["tmp"; "onedrive"; "backup"];
     ["tmp"; "onedrive"] := NDir [];
     ["tmp"; "onedrive"; "backup"] := NDir ["a.txt"; "b.txt"] ]}.

Definition record_relocated : rollback_record :=
  {| rd_source := "/tmp/proj";
     rd_target := "/tmp/onedrive/backup";
     source_existed := true;
     target_existed := false;
     source_is_junction := false;
     backup_created := true;
     junction_created := true;
     timestamp := "2025-01-01T00:00:00";
     original_junction_target := None |}.

(** The same state with a directory symbolic link where the junction is. *)
Definition fs_relocated_symlink : filesystem :=
  <[ ["tmp"; "proj"] := NLink SymbolicLink ["tmp"; "onedrive"; "backup"] ]>
    fs_relocated.

(** The target is a junction whose own target is gone. *)
Definition fs_stale_link : filesystem :=
  {[ ["tmp"] := NDir [];
     ["tmp"; "proj"] := NDir ["a.txt"];
     ["cloud"] := NDir [];
     ["cloud"; "backup"] := NLink Junction ["gone"] ]}.

End Platform.

(** ** The compensating sequence, as the specification words it *)

Inductive step :=
  | RemoveJunction (source : path)
  | MoveBack (target source : path)
  | RecreateJunction (source : path) (original : option string).

(** 1. if junctionCreated, 2. if backupCreated, 3. if sourceWasJunctionBefore. *)
Definition compensating_sequence (r : rollback_record) : list step :=
  (if junction_created r then [RemoveJunction (Path (rd_source r))] else []) ++
  (if backup_created r
   then [MoveBack (Path (rd_target r)) (Path (rd_source r))] else []) ++
  (if source_is_junction r
   then [RecreateJunction (Path (rd_source r)) (original_junction_target r)]
   else []).

(** Each step is carried out by the method of the rollback manager; there
    is nothing to recreate when no original target was recorded. *)
Definition run_step (os : OS) (s : step) : M bool :=
  match s with
  | RemoveJunction source => RollbackManager._remove_junction os source
  | MoveBack target source => RollbackManager._move_back_from_target os source target
  | RecreateJunction source (Some original) =>
      if bool_decide (original = EmptyString) then mret true
      else RollbackManager._restore_junction os source original
  | RecreateJunction source None => mret true
  end.

(** Every step runs, whatever the steps before it returned; the results
    are accumulated. *)
Fixpoint run_all (os : OS) (steps : list step) (success : bool) : M bool :=
  match steps with
  | [] => mret success
  | s :: rest => ok ← run_step os s; run_all os rest (success && ok)
  end.

(** ** Stages of a run and process restart *)

(** The first three stages of [execute_backup]: validation, snapshot, move. *)
Definition run_to_moved (os : OS) (source target : string) : M bool :=
  '(is_valid, error_msg) ← BackupManager.validate_paths os source target;
  if negb is_valid then mret false else
  f ← get_fs;
  RollbackManager.create_rollback_point os source
    (BackupManager.actual_target_str f source target);;
  BackupManager._move_folder os source target.

(** The process ends: the filesystem and [rollback.json] stay, the
    attribute [rollback_data] of the next process starts as [None]. *)
Definition crash (w : world) : world :=
  World (fs w) (rollback_file w) None (trace w).

Definition is_ps_command (e : event) : bool :=
  match e with
  | EvCommand _ => true
  | _ => false
  end.

(** ** Predicates on traces and worlds *)

(** [extends P w w']: the trace of [w'] is the trace of [w] with more events
    in front, all of them satisfying [P]. *)
Definition extends (P : event → Prop) (w w' : world) : Prop :=
  ∃ evs, trace w' = evs ++ trace w ∧ Forall P evs.

(** [emits P m]: every event [m] adds to the trace satisfies [P]. *)
Definition emits {A} (P : event → Prop) (m : M A) : Prop :=
  ∀ w, extends P w (m w).2.

(** [stable π m]: [m] leaves the component [π] of the world as it is. *)
Definition stable {A X} (π : world → X) (m : M A) : Prop :=
  ∀ w, π (m w).2 = π w.

Definition is_query (e : event) : Prop :=
  match e with
  | EvQuery _ => True
  | _ => False
  end.

Definition is_compensation (e : event) : Prop :=
  match e with
  | EvShell _ | EvMkdir _ | EvShutilMove _ _ | EvLog _ _ => True
  | _ => False
  end.

(** Events of the move step, for the destination string [d]. *)
Definition move_event (s d : string) (e : event) : Prop :=
  match e with
  | EvCommand (MoveItem a b) | EvCommand (Robocopy a b) => a = s ∧ b = d
  | EvCommand (RemoveItem a) => a = s
  | EvMkdir _ => True
  | _ => False
  end.

Definition junction_event (s d : string) (e : event) : Prop :=
  match e with
  | EvCommand (NewItemJunction a b) => a = s ∧ b = d
  | EvQuery _ => True
  | _ => False
  end.

(** Every event of a run of [execute_backup] on [source] and [target],
    started on the filesystem [f]. *)
Definition backup_event (os : OS) (f : filesystem) (source target : string)
    (e : event)
    : Prop :=
  match e with
  | EvCommand (MoveItem a b) | EvCommand (Robocopy a b)
  | EvCommand (NewItemJunction a b) =>
      a = source ∧ b = BackupManager.actual_target_str f source target
  | EvCommand (RemoveItem a) => a = source
  | EvJsonDump r =>
      r = RollbackManager.snapshot os f source
            (BackupManager.actual_target_str f source target)
  | _ => True
  end.

(** Events of a run whose commands have [source] and the destination [d]
    as arguments and whose records hold [rd] as target. *)
Definition uses_target (source d rd : string) (e : event) : Prop :=
  match e with
  | EvCommand (MoveItem a b) | EvCommand (Robocopy a b)
  | EvCommand (NewItemJunction a b) => a = source ∧ b = d
  | EvCommand (RemoveItem a) => a = source
  | EvJsonDump r => rd_target r = rd
  | _ => True
  end.

(** The outcome line is the last thing [rollback] does. *)
Definition outcome_line (success : bool) : event :=
  if success then EvLog INFO "Rollback completed successfully"
  else EvLog ERROR "Rollback completed with errors".

(** ** utils/paths.py: file names *)

Module Filenames.

(** [s.replace(old, new)] for a one-character [old]. *)
Fixpoint replace (old new : ascii) (s : string) : string :=
  match s with
  | EmptyString => EmptyString
  | String c s' =>
      String (if Ascii.eqb c old then new else c) (replace old new s')
  end.

(** [s.rstrip(chars)] *)
Fixpoint rstrip (chars : list ascii) (s : string) : string :=
  match s with
  | EmptyString => EmptyString
  | String c s' =>
      match rstrip chars s' with
      | EmptyString =>
          if bool_decide (c ∈ chars) then EmptyString else String c EmptyString
      | r => String c r
      end
  end.

(** [c.upper()] on ASCII letters; other bytes are left as they are. *)
Definition upper_ascii (c : ascii) : ascii :=
  let n := nat_of_ascii c in
  if (97 <=? n) && (n <=? 122) then ascii_of_nat (n - 32) else c.

(** [s.upper()] *)
Fixpoint upper (s : string) : string :=
  match s with
  | EmptyString => EmptyString
  | String c s' => String (upper_ascii c) (upper s')
  end.

(** The string [invalid_chars] of [get_safe_filename], character by
    character; the fourth is the double quote. *)
Definition invalid_chars : list ascii :=
  [ "<"; ">"; ":"; ascii_of_nat 34; "/"; "\"; "|"; "?"; "*" ]%char.

Definition reserved_names : list string :=
  [ "CON"; "PRN"; "AUX"; "NUL";
    "COM1"; "COM2"; "COM3"; "COM4"; "COM5"; "COM6"; "COM7"; "COM8"; "COM9";
    "LPT1"; "LPT2"; "LPT3"; "LPT4"; "LPT5"; "LPT6"; "LPT7"; "LPT8"; "LPT9" ].

Definition get_safe_filename (filename : string) : string :=
  let safe_name := foldl (λ acc c, replace c "_"%char acc) filename invalid_chars in
  let safe_name := rstrip [ "."; " " ]%char safe_name in
  if bool_decide (upper safe_name ∈ reserved_names)
  then String "_"%char safe_name
  else safe_name.

(** [c in s] for a character. *)
Fixpoint has_char (c : ascii) (s : string) : bool :=
  match s with
  | EmptyString => false
  | String a s' => Ascii.eqb a c || has_char c s'
  end.

(** Every character of [s] is a dot or a space. *)
Fixpoint dots_and_spaces (s : string) : bool :=
  match s with
  | EmptyString => true
  | String c s' => bool_decide (c ∈ [ "."; " " ]%char) && dots_and_spaces s'
  end.

End Filenames.

(** ** core/junction_manager.py *)

(** What the junction manager asks of the operating system beyond [OS]. *)
Record JunctionOS := {
  (** [run_command] on [Remove-Item -Path "p" -Force]:
      (success, stdout, stderr) and the filesystem left *)
  remove_item_force : string → filesystem → (bool * string * string) * filesystem;
  (** [run_command] on [(Get-Item "p").Target]: (success, stdout) *)
  get_item_target : string → filesystem → bool * string;
  (** [os.path.getctime(p)]; [None] when it raises *)
  getctime : string → option N;
}.

Module JunctionManager.

(** [os.path.exists(s)]: false on the empty string. *)
Definition os_path_exists (f : filesystem) (s : string) : bool :=
  if bool_decide (s = EmptyString) then false else exists_ f (Path s).

(** The dictionary [get_junction_info] returns; its ['type'] is always
    ['Junction']. *)
Record junction_info := {
  ji_source : string;
  ji_target : string;
  ji_exists : bool;
  ji_target_exists : bool;
  ji_created : option N;
}.

Definition remove_junction (os : OS) (jos : JunctionOS) (junction_path : string)
    : M (bool * string) :=
  f ← get_fs;
  if negb (os_path_exists f junction_path)
  then mret (false, "Junction path does not exist") else
  j ← PathUtils.is_junction os junction_path;
  if negb j then mret (false, "Path is not a junction link") else
  f ← get_fs;
  put_fs (remove_item_force jos junction_path f).2;;
  let '(success, output, error) := (remove_item_force jos junction_path f).1 in
  if (success : bool)
  then mret (true, "Junction removed successfully: " +:+ junction_path)
  else mret (false, "Failed to remove junction: " +:+ error).

(** [None] is the empty dictionary. *)
Definition get_junction_info (os : OS) (jos : JunctionOS) (p : string)
    : M (option junction_info) :=
  j ← PathUtils.is_junction os p;
  if negb j then mret None else
  f ← get_fs;
  let '(success, output) := get_item_target jos p f in
  if success && negb (bool_decide (output = EmptyString)) then
    let target := strip output in
    let created :=
      if os_path_exists f p then Some <$> getctime jos p else Some None in
    match created with
    | None => mret None
    | Some created =>
        mret (Some {| ji_source := p;
                      ji_target := target;
                      ji_exists := os_path_exists f p;
                      ji_target_exists := os_path_exists f target;
                      ji_created := created |})
    end
  else mret None.

Definition verify_junction (os : OS) (jos : JunctionOS) (p : string)
    : M (bool * string) :=
  f ← get_fs;
  if negb (os_path_exists f p) then mret (false, "Junction path does not exist") else
  j ← PathUtils.is_junction os p;
  if negb j then mret (false, "Path is not a junction link") else
  info ← get_junction_info os jos p;
  match info with
  | None => mret (false, "Could not get junction information")
  | Some i =>
      if bool_decide (ji_target i = EmptyString)
      then mret (false, "Junction has no target") else
      f ← get_fs;
      if negb (os_path_exists f (ji_target i))
      then mret (false, "Junction target does not exist: " +:+ ji_target i)
      else mret (true, "Junction is valid and working")
  end.

End JunctionManager.

(** ** More predicates on traces *)

Definition is_log (e : event) : bool :=
  match e with
  | EvLog _ _ => true
  | _ => false
  end.

(** The number of outcome lines among the events. *)
Fixpoint count_log (evs : list event) : nat :=
  match evs with
  | [] => 0
  | e :: rest => (if is_log e then 1 else 0) + count_log rest
  end.

(** The answer [PathUtils.get_junction_target] gives on a filesystem. *)
Definition junction_target_of (os : OS) (f : filesystem) (p : string)
    : option string :=
  if PathUtils.is_junction_of os f p then
    let '(success, output) := run_query os (GetItemTarget p) f in
    if success && negb (all_space output) then Some (strip output) else None
  else None.

(** A platform for the junction manager on which every command has its
    documented effect. *)
Definition ideal_junction_os : JunctionOS :=
  {| remove_item_force := λ p f,
       match f !! Path p with
       | Some _ => Platform.succeeded (delete (Path p) f)
       | None => Platform.failed f
       end;
     get_item_target := λ p f,
       match f !! Path p with
       | Some (NLink _ t) => (true, str t)
       | Some _ => (true, EmptyString)
       | None => (false, EmptyString)
       end;
     getctime := λ _, Some 0%N |}.

(** Components of the world that neither the filesystem nor the trace
    can change: the record in memory and the record on disk. *)
Definition blind {X} (π : world → X) : Prop :=
  ∀ f rf rd t f' t', π (World f rf rd t) = π (World f' rf rd t').

(** [logged n w w']: the trace of [w'] extends that of [w] with events of
    which [n] are outcome lines. *)
Definition logged (n : nat) (w w' : world) : Prop :=
  ∃ evs, trace w' = evs ++ trace w ∧ count_log evs = n.

(** The command sequences of one move step, most recent first. *)
Definition move_commands (source dst : string) : list (list event) :=
  [ [];
    [EvCommand (MoveItem source dst)];
    [EvCommand (Robocopy source dst); EvCommand (MoveItem source dst)];
    [EvCommand (RemoveItem source); EvCommand (Robocopy source dst);
     EvCommand (MoveItem source dst)] ].

Definition is_rmdir (e : event) : bool :=
  match e with
  | EvShell (Rmdir _) => true
  | _ => false
  end.

(** A junction whose target is gone. *)
Definition fs_dangling : filesystem :=
  {[ ["tmp"] := NDir [];
     ["tmp"; "proj"] := NLink Junction ["tmp"; "gone"] ]}.

(** The filesystem of scenario 1 once the content has been moved. *)
Definition fs_moved : filesystem :=
  {[ ["tmp"] := NDir [];
     ["tmp"; "onedrive"] := NDir [];
     ["tmp"; "onedrive"; "backup"] := NDir ["a.txt"; "b.txt"] ]}.

(** ** Reasoning about the monad *)

Section Monad.

Context {A B : Type}.

Lemma bind_eq (m : M A) (k : A → M B) (w : world) :
  (m ≫= k) w = k (m w).1 (m w).2.
Proof. unfold mbind, M_bind. by destruct (m w). Qed.

Lemma ret_eq (a : A) (w : world) : (mret a : M A) w = (a, w).
Proof. done. Qed.

End Monad.

Lemma extends_refl P w w' : trace w' = trace w → extends P w w'.
Proof. intros H. exists []. by rewrite H. Qed.

Lemma extends_trans P w1 w2 w3 :
  extends P w1 w2 → extends P w2 w3 → extends P w1 w3.
Proof.
  intros (e1 & E1 & F1) (e2 & E2 & F2). exists (e2 ++ e1). split.
  - by rewrite E2, E1, app_assoc.
  - by apply Forall_app.
Qed.

Lemma extends_weaken (P Q : event → Prop) w w' :
  (∀ e, P e → Q e) → extends P w w' → extends Q w w'.
Proof.
  intros HPQ (evs & E & F). exists evs. split; [done|].
  eapply Forall_impl; eauto.
Qed.

Section Rules.

Context {A B : Type}.

Lemma emits_ret P (a : A) : emits P (mret a).
Proof. intros w. by exists []. Qed.

Lemma emits_bind P (m : M A) (k : A → M B) :
  emits P m → (∀ a, emits P (k a)) → emits P (m ≫= k).
Proof.
  intros Hm Hk w. rewrite bind_eq.
  destruct (Hm w) as (e1 & E1 & F1).
  destruct (Hk (m w).1 (m w).2) as (e2 & E2 & F2).
  exists (e2 ++ e1). split.
  - by rewrite E2, E1, app_assoc.
  - by apply Forall_app.
Qed.

Lemma emits_weaken (P Q : event → Prop) (m : M A) :
  (∀ e, P e → Q e) → emits P m → emits Q m.
Proof.
  intros HPQ Hm w. destruct (Hm w) as (evs & E & F).
  exists evs. split; [done|]. eapply Forall_impl; eauto.
Qed.

Lemma stable_ret {X} (π : world → X) (a : A) : stable π (mret a).
Proof. by intros w. Qed.

Lemma stable_bind {X} (π : world → X) (m : M A) (k : A → M B) :
  stable π m → (∀ a, stable π (k a)) → stable π (m ≫= k).
Proof. intros Hm Hk w. rewrite bind_eq, Hk. apply Hm. Qed.

End Rules.

Lemma emits_at {A} P (m : M A) w : emits P m → extends P w (m w).2.
Proof. intros H. apply H. Qed.

Lemma emits_emit P e : P e → emits P (emit e).
Proof. intros H w. exists [e]. split; [done|]. by constructor. Qed.

Lemma emits_silent {A} P (m : M A) :
  (∀ w, trace (m w).2 = trace w) → emits P m.
Proof. intros H w. exists []. by rewrite H. Qed.

Lemma emits_ps_query P os q : P (EvQuery q) → emits P (ps_query os q).
Proof. intros H w. exists [EvQuery q]. split; [done|]. by constructor. Qed.

Lemma emits_ps_command P os c : P (EvCommand c) → emits P (ps_command os c).
Proof. intros H w. exists [EvCommand c]. split; [done|]. by constructor. Qed.

Lemma emits_shell P os c : P (EvShell c) → emits P (shell os c).
Proof. intros H w. exists [EvShell c]. split; [done|]. by constructor. Qed.

Lemma emits_mkdir P os p : P (EvMkdir p) → emits P (mkdir os p).
Proof.
  intros H w. exists [EvMkdir p]. split; [|by constructor].
  unfold mkdir. rewrite !bind_eq. simpl. by destruct (mkdir_parents os p (fs w)).
Qed.

Lemma emits_move P os s d : P (EvShutilMove s d) → emits P (move os s d).
Proof.
  intros H w. exists [EvShutilMove s d]. split; [|by constructor].
  unfold move. rewrite !bind_eq. simpl. by destruct (shutil_move os s d (fs w)).
Qed.

Lemma stable_ps_query {X} (π : world → X) os q :
  (∀ f rf rd t e, π (World f rf rd (e :: t)) = π (World f rf rd t)) →
  stable π (ps_query os q).
Proof. intros H w. unfold ps_query. rewrite !bind_eq. simpl. rewrite H. by destruct w. Qed.

(** Splitting the program text along its binds, branches and matches. *)
Ltac step_emits :=
  match goal with
  | |- emits _ (mret _) => apply emits_ret
  | |- emits _ (_ ≫= _) => apply emits_bind; [|intros ?]
  | |- emits _ (emit _) => apply emits_emit
  | |- emits _ (ps_query _ _) => apply emits_ps_query
  | |- emits _ (ps_command _ _) => apply emits_ps_command
  | |- emits _ (shell _ _) => apply emits_shell
  | |- emits _ (mkdir _ _) => apply emits_mkdir
  | |- emits _ (move _ _ _) => apply emits_move
  | |- emits _ get_fs => apply emits_silent; intros ?; reflexivity
  | |- emits _ get_rollback_data => apply emits_silent; intros ?; reflexivity
  | |- emits _ get_rollback_file => apply emits_silent; intros ?; reflexivity
  | |- emits _ (put_fs _) => apply emits_silent; intros ?; reflexivity
  | |- emits _ (put_rollback_data _) => apply emits_silent; intros ?; reflexivity
  | |- emits _ (put_rollback_file _) => apply emits_silent; intros ?; reflexivity
  | |- emits _ (if ?b then _ else _) => destruct b
  | |- emits _ (match ?x with _ => _ end) => destruct x
  end.

Ltac step_stable :=
  match goal with
  | |- stable _ (mret _) => apply stable_ret
  | |- stable _ (_ ≫= _) => apply stable_bind; [|intros ?]
  | |- stable _ (ps_query _ _) => apply stable_ps_query; reflexivity
  | |- stable _ get_fs => intros ?; reflexivity
  | |- stable _ get_rollback_data => intros ?; reflexivity
  | |- stable _ get_rollback_file => intros ?; reflexivity
  | |- stable _ (emit _) => intros ?; reflexivity
  | |- stable _ (put_fs _) => intros ?; reflexivity
  | |- stable _ (put_rollback_data _) => intros ?; reflexivity
  | |- stable _ (put_rollback_file _) => intros ?; reflexivity
  | |- stable _ (if ?b then _ else _) => destruct b
  | |- stable _ (match ?x with _ => _ end) => destruct x
  end.

(** ** What each method adds to the trace and what it leaves alone *)

Section Inspection.

Variable os : OS.

Lemma is_junction_emits P p :
  (∀ q, P (EvQuery q)) → emits P (PathUtils.is_junction os p).
Proof. intros H. unfold PathUtils.is_junction. repeat step_emits; auto. Qed.

Lemma get_junction_target_emits P p :
  (∀ q, P (EvQuery q)) → emits P (PathUtils.get_junction_target os p).
Proof.
  intros H. unfold PathUtils.get_junction_target.
  apply emits_bind; [by apply is_junction_emits|intros ?].
  repeat step_emits; auto.
Qed.

Lemma is_junction_stable {X} (π : world → X) p :
  (∀ f rf rd t e, π (World f rf rd (e :: t)) = π (World f rf rd t)) →
  stable π (PathUtils.is_junction os p).
Proof.
  intros H. unfold PathUtils.is_junction.
  repeat first [apply stable_ps_query; exact H | step_stable].
Qed.

Lemma get_junction_target_stable {X} (π : world → X) p :
  (∀ f rf rd t e, π (World f rf rd (e :: t)) = π (World f rf rd t)) →
  stable π (PathUtils.get_junction_target os p).
Proof.
  intros H. unfold PathUtils.get_junction_target.
  apply stable_bind; [by apply is_junction_stable|intros ?].
  repeat first [apply stable_ps_query; exact H | step_stable].
Qed.

(** The monadic test returns what [is_junction_of] computes. *)
Lemma is_junction_result p w :
  (PathUtils.is_junction os p w).1 = PathUtils.is_junction_of os (fs w) p.
Proof.
  unfold PathUtils.is_junction, PathUtils.is_junction_of.
  rewrite bind_eq. simpl.
  destruct (bool_decide (p = EmptyString) || negb (exists_ (fs w) (Path p))); [done|].
  rewrite bind_eq. unfold ps_query. rewrite !bind_eq. simpl.
  destruct (run_query os (GetItemLinkType p) (fs w)) as [success output].
  by destruct (success && negb (all_space output)).
Qed.

Lemma validate_paths_emits P source target :
  (∀ q, P (EvQuery q)) → emits P (BackupManager.validate_paths os source target).
Proof.
  intros H. unfold BackupManager.validate_paths.
  apply emits_bind; [step_emits|intros f].
  destruct (PathUtils.validate_source_path os f source) as [[] ?]; simpl;
    [|step_emits].
  destruct (PathUtils.validate_target_path os f target) as [[] ?]; simpl;
    [|step_emits].
  apply emits_bind; [by apply is_junction_emits|intros ?].
  repeat step_emits.
Qed.

Lemma validate_paths_stable {X} (π : world → X) source target :
  (∀ f rf rd t e, π (World f rf rd (e :: t)) = π (World f rf rd t)) →
  stable π (BackupManager.validate_paths os source target).
Proof.
  intros H. unfold BackupManager.validate_paths.
  apply stable_bind; [step_stable|intros f].
  destruct (PathUtils.validate_source_path os f source) as [[] ?]; simpl;
    [|step_stable].
  destruct (PathUtils.validate_target_path os f target) as [[] ?]; simpl;
    [|step_stable].
  apply stable_bind; [by apply is_junction_stable|intros ?].
  repeat step_stable.
Qed.

End Inspection.

Section Rollback.

Variable os : OS.

Lemma rollback_emits P :
  (∀ e, is_compensation e → P e) → emits P (RollbackManager.rollback os).
Proof.
  intros H. eapply emits_weaken; [exact H|].
  unfold RollbackManager.rollback, RollbackManager.load,
    RollbackManager._remove_junction, RollbackManager._move_back_from_target,
    RollbackManager._restore_junction.
  repeat step_emits; done.
Qed.

Lemma rollback_keeps_file : stable rollback_file (RollbackManager.rollback os).
Proof.
  unfold RollbackManager.rollback, RollbackManager.load,
    RollbackManager._remove_junction, RollbackManager._move_back_from_target,
    RollbackManager._restore_junction.
  assert (∀ c, stable rollback_file (shell os c)) as Hshell.
  { intros c w. unfold shell. by rewrite !bind_eq. }
  assert (∀ p, stable rollback_file (mkdir os p)) as Hmkdir.
  { intros c w. unfold mkdir. rewrite !bind_eq. simpl.
    by destruct (mkdir_parents os c (fs w)). }
  assert (∀ s d, stable rollback_file (move os s d)) as Hmove.
  { intros s d w. unfold move. rewrite !bind_eq. simpl.
    by destruct (shutil_move os s d (fs w)). }
  repeat first [apply Hshell | apply Hmkdir | apply Hmove | step_stable].
Qed.

(** A record with no flag set asks for no compensating action. *)
Lemma rollback_idle w r :
  rollback_data w = Some r →
  junction_created r = false →
  backup_created r = false →
  source_is_junction r = false →
  RollbackManager.rollback os w =
    (true, World (fs w) (rollback_file w) (rollback_data w)
             (EvLog INFO "Rollback completed successfully" :: trace w)).
Proof.
  intros Hd Hj Hb Hs. unfold RollbackManager.rollback, RollbackManager.load.
  rewrite !bind_eq. simpl. rewrite Hd. simpl. rewrite Hj, Hb, Hs.
  rewrite !bind_eq. simpl. by rewrite Hd.
Qed.

(** What [create_rollback_point] leaves behind. *)
Lemma create_rollback_point_eq source target w :
  RollbackManager.create_rollback_point os source target w =
    let r := RollbackManager.snapshot os (fs w) source target in
    if json_dump_ok os
    then (true, World (fs w) (Some r) (Some r) (EvJsonDump r :: trace w))
    else (false, World (fs w) (rollback_file w) (Some r) (trace w)).
Proof.
  unfold RollbackManager.create_rollback_point, RollbackManager.json_dump.
  rewrite !bind_eq. simpl. by destruct (json_dump_ok os).
Qed.

End Rollback.

Section Backup.

Variable os : OS.

Lemma final_is_actual f source target :
  BackupManager.final_target_str f source target =
  BackupManager.actual_target_str f source target.
Proof.
  unfold BackupManager.final_target_str, BackupManager.final_target_path,
    BackupManager.actual_target_str.
  by destruct (exists_ f (Path target) && is_dir f (Path target)).
Qed.

Lemma move_folder_events source target w :
  extends (move_event source (BackupManager.final_target_str (fs w) source target))
    w (BackupManager._move_folder os source target w).2.
Proof.
  unfold BackupManager._move_folder. rewrite bind_eq. cbv beta.
  change (get_fs w).1 with (fs w). change (get_fs w).2 with w.
  generalize (fs w). intros f. apply emits_at.
  repeat step_emits; done.
Qed.

Lemma move_folder_keeps_data source target :
  stable rollback_data (BackupManager._move_folder os source target).
Proof.
  unfold BackupManager._move_folder.
  assert (∀ c, stable rollback_data (ps_command os c)) as Hcmd.
  { intros c w. unfold ps_command. by rewrite !bind_eq. }
  assert (∀ p, stable rollback_data (mkdir os p)) as Hmkdir.
  { intros c w. unfold mkdir. rewrite !bind_eq. simpl.
    by destruct (mkdir_parents os c (fs w)). }
  repeat first [apply Hcmd | apply Hmkdir | step_stable].
Qed.

Lemma create_junction_emits source target :
  emits (junction_event source target)
    (BackupManager._create_junction os source target).
Proof.
  unfold BackupManager._create_junction.
  repeat first [apply is_junction_emits; done | step_emits]; done.
Qed.

Lemma verify_backup_emits source target :
  emits is_query (BackupManager._verify_backup os source target).
Proof.
  unfold BackupManager._verify_backup.
  repeat first [apply is_junction_emits; done
               | apply get_junction_target_emits; done | step_emits]; done.
Qed.

Lemma verify_backup_keeps_fs source target :
  stable fs (BackupManager._verify_backup os source target).
Proof.
  unfold BackupManager._verify_backup.
  repeat first [apply is_junction_stable; done
               | apply get_junction_target_stable; done | step_stable].
Qed.

Lemma clear_rollback_point_emits P :
  P EvUnlink → emits P (RollbackManager.clear_rollback_point os).
Proof.
  intros H. unfold RollbackManager.clear_rollback_point.
  repeat step_emits; done.
Qed.

(** The part of [execute_backup] after the move step. *)
Lemma after_move_emits f source target move_success :
  emits (backup_event os f source target)
    (if negb move_success then RollbackManager.rollback os;; mret false else
     junction_success ← BackupManager._create_junction os source
                          (BackupManager.actual_target_str f source target);
     if negb junction_success then RollbackManager.rollback os;; mret false else
     verified ← BackupManager._verify_backup os source
                  (BackupManager.actual_target_str f source target);
     if negb verified then RollbackManager.rollback os;; mret false else
     RollbackManager.clear_rollback_point os;;
     mret true).
Proof.
  assert (emits (backup_event os f source target) (RollbackManager.rollback os)) as Hr.
  { apply rollback_emits. by intros []. }
  repeat first
    [ exact Hr
    | eapply emits_weaken; [|apply create_junction_emits]; by intros [| [] | | | | | |]
    | eapply emits_weaken; [|apply verify_backup_emits]; by intros []
    | apply clear_rollback_point_emits; done
    | step_emits ].
Qed.

Lemma execute_backup_events source target w :
  extends (backup_event os (fs w) source target)
    w (BackupManager.execute_backup os source target w).2.
Proof.
  unfold BackupManager.execute_backup. rewrite bind_eq.
  pose proof (validate_paths_emits os (backup_event os (fs w) source target)
                source target (λ _, I) w) as Hv.
  pose proof (validate_paths_stable os fs source target
                (λ _ _ _ _ _, eq_refl) w) as Hf.
  destruct (BackupManager.validate_paths os source target w)
    as [[is_valid error_msg] w0]. simpl in Hv, Hf. simpl.
  destruct is_valid; simpl; [|done].
  rewrite bind_eq. cbv beta.
  change (get_fs w0).1 with (fs w0). change (get_fs w0).2 with w0.
  rewrite Hf. rewrite bind_eq. cbv beta.
  rewrite create_rollback_point_eq. cbv zeta.
  set (r := RollbackManager.snapshot os (fs w0) source
              (BackupManager.actual_target_str (fs w) source target)).
  set (w1 := (if json_dump_ok os
              then (true, World (fs w0) (Some r) (Some r) (EvJsonDump r :: trace w0))
              else (false, World (fs w0) (rollback_file w0) (Some r) (trace w0))).2).
  assert (extends (backup_event os (fs w) source target) w0 w1) as H1.
  { subst w1. destruct (json_dump_ok os); simpl.
    - exists [EvJsonDump r]. split; [done|]. constructor; [|done].
      simpl. subst r. by rewrite Hf.
    - by apply extends_refl. }
  assert (fs w1 = fs w) as Hf1.
  { subst w1. by destruct (json_dump_ok os). }
  rewrite bind_eq.
  pose proof (move_folder_events source target w1) as H2.
  rewrite Hf1, final_is_actual in H2.
  eapply extends_trans; [exact Hv|].
  eapply extends_trans; [exact H1|].
  eapply extends_trans.
  { eapply extends_weaken; [|exact H2]. by intros [| [] | | | | | |]. }
  apply after_move_emits.
Qed.

End Backup.

Section Orchestration.

Variable os : OS.




(** [execute_backup] stage by stage: each stage runs on the world the
    previous one left, and every failure after the snapshot ends in the
    world [rollback] leaves, with [rollback]'s own result dropped. *)
Lemma execute_backup_stages source target w :
  BackupManager.execute_backup os source target w =
    let v := BackupManager.validate_paths os source target w in
    if negb v.1.1 then (false, v.2) else
    let eff := BackupManager.actual_target_str (fs w) source target in
    let w1 := (RollbackManager.create_rollback_point os source eff v.2).2 in
    let mv := BackupManager._move_folder os source target w1 in
    if negb mv.1 then (false, (RollbackManager.rollback os mv.2).2) else
    let jn := BackupManager._create_junction os source eff mv.2 in
    if negb jn.1 then (false, (RollbackManager.rollback os jn.2).2) else
    let vf := BackupManager._verify_backup os source eff jn.2 in
    if negb vf.1 then (false, (RollbackManager.rollback os vf.2).2) else
    (true, (RollbackManager.clear_rollback_point os vf.2).2).
Proof.
  unfold BackupManager.execute_backup. rewrite bind_eq. cbv zeta.
  pose proof (validate_paths_stable os fs source target
                (λ _ _ _ _ _, eq_refl) w) as Hf.
  destruct (BackupManager.validate_paths os source target w)
    as [[is_valid error_msg] w0]. simpl in Hf. simpl.
  destruct is_valid; simpl; [|done].
  rewrite bind_eq. cbv beta.
  change (get_fs w0).1 with (fs w0). change (get_fs w0).2 with w0.
  rewrite Hf. rewrite !bind_eq.
  destruct (BackupManager._move_folder _ _ _ _) as [[] w2]; simpl;
    [|by rewrite bind_eq].
  rewrite bind_eq.
  destruct (BackupManager._create_junction _ _ _ _) as [[] w3]; simpl;
    [|by rewrite bind_eq].
  rewrite bind_eq.
  destruct (BackupManager._verify_backup _ _ _ _) as [[] w4]; simpl;
    [|by rewrite bind_eq].
  by rewrite bind_eq.
Qed.

(** A passing validation has seen the parent of the target. *)
Lemma validate_target_path_parent f target msg :
  PathUtils.validate_target_path os f target = (true, msg) →
  exists_ f (parent (Path target)) = true.
Proof.
  unfold PathUtils.validate_target_path.
  destruct (all_space target); [done|].
  destruct (exists_ f (parent (Path target))); [done|]. simpl.
  destruct (exists_ f (Path target)); [|done].
  destruct (is_file f (Path target)); [done|].
  by destruct (iterdir os (Path target)).
Qed.

Lemma validate_paths_parent source target w :
  (BackupManager.validate_paths os source target w).1.1 = true →
  exists_ (fs w) (parent (Path target)) = true.
Proof.
  unfold BackupManager.validate_paths. rewrite bind_eq. cbv beta.
  change (get_fs w).1 with (fs w). change (get_fs w).2 with w.
  destruct (PathUtils.validate_source_path os (fs w) source) as [[] ?]; simpl;
    [|done].
  destruct (PathUtils.validate_target_path os (fs w) target) as [[] ?] eqn:E;
    simpl; [|done].
  intros _. by eapply validate_target_path_parent.
Qed.

(** A target whose resolved path is too long never passes. *)
Lemma validate_target_path_long f target :
  260 < String.length (str (resolve f (Path target))) →
  (PathUtils.validate_target_path os f target).1 = false.
Proof.
  intros Hlen. unfold PathUtils.validate_target_path.
  destruct (all_space target); [done|].
  assert (bool_decide (260 < String.length (str (resolve f (Path target)))) = true)
    as -> by by apply bool_decide_eq_true.
  destruct (exists_ f (Path target)).
  - destruct (is_file f (Path target)); [done|].
    destruct (iterdir os (Path target)); try done.
    destruct (negb _); [done|]. destruct (negb _); [done|]. by destruct (negb _).
  - destruct (negb _); [done|]. destruct (negb _); [done|]. by destruct (negb _).
Qed.

Lemma final_target_parent f source target :
  exists_ f (parent (Path target)) = true →
  exists_ f (parent (BackupManager.final_target_path f source target)) = true.
Proof.
  intros Hp. unfold BackupManager.final_target_path.
  destruct (exists_ f (Path target)) eqn:He; [|done].
  destruct (is_dir f (Path target)); [|done]. simpl.
  unfold join. destruct (name (Path source)); [done|].
  unfold parent. by rewrite removelast_last.
Qed.

(** With the final target in place the move step returns at once. *)
Lemma move_folder_target_exists source target w :
  exists_ (fs w) (parent (BackupManager.final_target_path (fs w) source target)) = true →
  exists_ (fs w) (BackupManager.final_target_path (fs w) source target) = true →
  BackupManager._move_folder os source target w = (false, w).
Proof.
  intros Hp He. unfold BackupManager._move_folder.
  rewrite bind_eq. cbv beta.
  change (get_fs w).1 with (fs w). change (get_fs w).2 with w.
  rewrite Hp. simpl. rewrite bind_eq. simpl. rewrite bind_eq. simpl.
  by rewrite He.
Qed.


End Orchestration.

Section Stages.

Variable os : OS.

Lemma run_to_moved_stages source target w :
  run_to_moved os source target w =
    let v := BackupManager.validate_paths os source target w in
    if negb v.1.1 then (false, v.2) else
    BackupManager._move_folder os source target
      (RollbackManager.create_rollback_point os source
         (BackupManager.actual_target_str (fs w) source target) v.2).2.
Proof.
  unfold run_to_moved. rewrite bind_eq. cbv zeta.
  pose proof (validate_paths_stable os fs source target
                (λ _ _ _ _ _, eq_refl) w) as Hf.
  destruct (BackupManager.validate_paths os source target w)
    as [[is_valid error_msg] w0]. simpl in Hf. simpl.
  destruct is_valid; simpl; [|done].
  rewrite bind_eq. cbv beta.
  change (get_fs w0).1 with (fs w0). change (get_fs w0).2 with w0.
  by rewrite Hf, bind_eq.
Qed.

(** The world in which the move step starts: the filesystem is the one the
    request was made on and the record in memory is the fresh snapshot. *)
Lemma snapshot_world source target w :
  let v := BackupManager.validate_paths os source target w in
  let eff := BackupManager.actual_target_str (fs w) source target in
  let w1 := (RollbackManager.create_rollback_point os source eff v.2).2 in
  fs w1 = fs w ∧
  rollback_data w1 = Some (RollbackManager.snapshot os (fs w) source eff).
Proof.
  cbv zeta. rewrite create_rollback_point_eq. cbv zeta.
  rewrite (validate_paths_stable os fs source target (λ _ _ _ _ _, eq_refl) w).
  by destruct (json_dump_ok os).
Qed.

(** No run of [execute_backup] writes a record with a flag set. *)
Lemma execute_backup_writes_snapshot_only source target w :
  extends (λ e, match e with
                | EvJsonDump r => backup_created r = false ∧ junction_created r = false
                | _ => True
                end)
    w (BackupManager.execute_backup os source target w).2.
Proof.
  eapply extends_weaken; [|apply (execute_backup_events os)].
  intros [] H; try done. simpl in H. by subst.
Qed.

Lemma run_all_app l1 l2 : ∀ success w,
  run_all os (l1 ++ l2) success w =
    run_all os l2 (run_all os l1 success w).1 (run_all os l1 success w).2.
Proof.
  induction l1 as [|s rest IH]; intros success w; simpl.
  - done.
  - rewrite !bind_eq. apply IH.
Qed.

Lemma run_all_optional (applies : bool) s success w :
  run_all os (if applies then [s] else []) success w =
    (success && ((if applies then run_step os s else mret true) w).1,
     ((if applies then run_step os s else mret true) w).2).
Proof.
  destruct applies; simpl.
  - rewrite bind_eq. by destruct (run_step os s w).
  - by rewrite andb_true_r.
Qed.

Lemma log_outcome_eq (success : bool) w :
  ((if success then emit (EvLog INFO "Rollback completed successfully")
    else emit (EvLog ERROR "Rollback completed with errors"));; mret success) w
  = (success, (emit (outcome_line success) w).2).
Proof. rewrite bind_eq. by destruct success. Qed.

(** [rollback] is the run of the compensating sequence of the record it
    loads, followed by the outcome line. *)
Lemma rollback_eq_run_all w r w0 :
  RollbackManager.load w = (Some r, w0) →
  RollbackManager.rollback os w =
    let done_all := run_all os (compensating_sequence r) true w0 in
    (done_all.1, (emit (outcome_line done_all.1) done_all.2).2).
Proof.
  intros Hl. unfold RollbackManager.rollback. rewrite bind_eq, Hl.
  cbn [fst snd]. cbv zeta. unfold compensating_sequence.
  rewrite !run_all_app, !run_all_optional. cbn [fst snd].
  assert ((if source_is_junction r
           then match original_junction_target r with
                | Some original_target =>
                    if bool_decide (original_target = EmptyString) then mret true
                    else RollbackManager._restore_junction os (Path (rd_source r))
                           original_target
                | None => mret true
                end
           else mret true)
          = (if source_is_junction r
             then run_step os (RecreateJunction (Path (rd_source r))
                                 (original_junction_target r))
             else mret true)) as ->.
  { destruct (source_is_junction r); [|done]. simpl.
    by destruct (original_junction_target r). }
  do 3 (rewrite bind_eq; cbv beta).
  apply log_outcome_eq.
Qed.

(** The accumulated flag does not decide which steps run. *)
Lemma run_all_no_early_stop steps : ∀ success w,
  (run_all os steps success w).2 = (run_all os steps true w).2 ∧
  (run_all os steps false w).1 = false.
Proof.
  induction steps as [|s rest IH]; intros success w; simpl.
  - done.
  - rewrite !bind_eq. destruct (run_step os s w) as [ok w']. simpl. split.
    + transitivity (run_all os rest true w').2; [apply IH|].
      symmetry. apply IH.
    + apply (IH true).
Qed.

End Stages.

(** * Properties of the relocation *)

Import Platform.

(** C4, as stated, fails: with no record in memory and none on disk,
    [rollback] reports failure, not success. *)
Lemma c4_counterexample :
  rollback_data (start fs_tmp) = None ∧
  rollback_file (start fs_tmp) = None ∧
  (RollbackManager.rollback ideal_os (start fs_tmp)).1 = false.
Proof. by vm_compute. Qed.

(** C4, amended: calling [rollback] with no record in memory and none on
    disk raises nothing and touches nothing (the filesystem, the file and
    the attribute are as before, no command is run), logs the warning
    "No rollback data available" and returns [False]. *)
Theorem c4_rollback_without_record os w :
  rollback_data w = None →
  rollback_file w = None →
  RollbackManager.rollback os w =
    (false, World (fs w) None None
              (EvLog WARNING "No rollback data available" :: trace w)).
Proof.
  intros Hd Hf. destruct w as [f rf rd t]. simpl in Hd, Hf. subst rf rd.
  reflexivity.
Qed.

Lemma c4_rollback_without_record_witness :
  rollback_data (start fs_tmp) = None ∧
  rollback_file (start fs_tmp) = None ∧
  RollbackManager.rollback ideal_os (start fs_tmp) =
    (false, World fs_tmp None None [EvLog WARNING "No rollback data available"]).
Proof.
  split; [reflexivity|]. split; [reflexivity|].
  apply (c4_rollback_without_record ideal_os (start fs_tmp)); reflexivity.
Defined.

(** C6: [validate_paths] rejects every request whose source the path
    utilities report as a junction; it changes neither the filesystem nor
    the rollback file nor the record in memory and runs nothing but
    read-only queries; and when it rejects, [execute_backup] returns
    [False] in the very world validation left, so no snapshot is written
    and [rollback] is not reached. *)
Theorem c6_validation_is_a_pure_check os source target w :
  let v := BackupManager.validate_paths os source target w in
  (PathUtils.is_junction_of os (fs w) source = true → v.1.1 = false)
  ∧ fs v.2 = fs w
  ∧ rollback_file v.2 = rollback_file w
  ∧ rollback_data v.2 = rollback_data w
  ∧ extends is_query w v.2
  ∧ (v.1.1 = false →
     BackupManager.execute_backup os source target w = (false, v.2)).
Proof.
  cbv zeta. repeat split.
  - intros Hj. unfold BackupManager.validate_paths. rewrite bind_eq. cbv beta.
    change (get_fs w).1 with (fs w). change (get_fs w).2 with w.
    destruct (PathUtils.validate_source_path os (fs w) source) as [[] ?]; simpl;
      [|done].
    destruct (PathUtils.validate_target_path os (fs w) target) as [[] ?]; simpl;
      [|done].
    rewrite bind_eq, is_junction_result, Hj. done.
  - by apply validate_paths_stable.
  - by apply validate_paths_stable.
  - by apply validate_paths_stable.
  - by apply validate_paths_emits.
  - intros Hv. rewrite execute_backup_stages. cbv zeta. by rewrite Hv.
Qed.

Lemma c6_validation_is_a_pure_check_witness :
  let v := BackupManager.validate_paths ideal_os "/tmp/proj" "/tmp/onedrive/backup"
             (start fs_relocated) in
  PathUtils.is_junction_of ideal_os fs_relocated "/tmp/proj" = true ∧
  v.1.1 = false ∧
  BackupManager.execute_backup ideal_os "/tmp/proj" "/tmp/onedrive/backup"
    (start fs_relocated) = (false, v.2).
Proof.
  cbv zeta.
  pose proof (c6_validation_is_a_pure_check ideal_os "/tmp/proj"
                "/tmp/onedrive/backup" (start fs_relocated)) as H.
  cbv zeta in H. destruct H as (Hj & _ & _ & _ & _ & He).
  assert (PathUtils.is_junction_of ideal_os fs_relocated "/tmp/proj" = true) as J
    by (vm_compute; reflexivity).
  split; [exact J|]. split; [exact (Hj J)|]. exact (He (Hj J)).
Defined.

(** C7, as stated, fails: the target is an existing directory of 252
    characters, the effective target below it has 272, and validation
    accepts the request. *)
Lemma c7_counterexample :
  (BackupManager.validate_paths ideal_os "/work/a-project-directory" long_target
     (start fs_long)).1 = (true, EmptyString) ∧
  String.length
    (str (resolve fs_long
            (Path (BackupManager.actual_target_str fs_long
                     "/work/a-project-directory" long_target)))) = 272.
Proof. by vm_compute. Qed.

(** C7, amended: validation rejects every request in which the resolved
    targetPath itself is longer than 260 characters; the length of
    targetPath/basename(sourcePath) is not examined. *)
Theorem c7_long_target_rejected os source target w :
  260 < String.length (str (resolve (fs w) (Path target))) →
  (BackupManager.validate_paths os source target w).1.1 = false.
Proof.
  intros Hlen. unfold BackupManager.validate_paths. rewrite bind_eq. cbv beta.
  change (get_fs w).1 with (fs w). change (get_fs w).2 with w.
  destruct (PathUtils.validate_source_path os (fs w) source) as [[] ?]; simpl;
    [|done].
  pose proof (validate_target_path_long os (fs w) target Hlen) as Ht.
  destruct (PathUtils.validate_target_path os (fs w) target) as [[] ?];
    simpl in *; done.
Qed.

Lemma c7_long_target_rejected_witness :
  260 < String.length (str (resolve fs_long (Path (long_target +:+ "/long-tail")))) ∧
  (BackupManager.validate_paths ideal_os "/work/a-project-directory"
     (long_target +:+ "/long-tail") (start fs_long)).1.1 = false.
Proof.
  assert (260 < String.length
                  (str (resolve fs_long (Path (long_target +:+ "/long-tail"))))) as H
    by (vm_compute; lia).
  split; [exact H|].
  exact (c7_long_target_rejected ideal_os "/work/a-project-directory"
           (long_target +:+ "/long-tail") (start fs_long) H).
Defined.

(** C10: when validation has passed and the effective target already
    exists, the move step returns [False] at once, leaving the world as it
    found it (no command, no mkdir), [execute_backup] returns [False], and
    the whole run issues no PowerShell command: nothing is moved, copied,
    deleted or linked. *)
Theorem c10_existing_effective_target os source target w :
  (BackupManager.validate_paths os source target w).1.1 = true →
  exists_ (fs w) (BackupManager.final_target_path (fs w) source target) = true →
  let w0 := (BackupManager.validate_paths os source target w).2 in
  let w1 := (RollbackManager.create_rollback_point os source
               (BackupManager.actual_target_str (fs w) source target) w0).2 in
  BackupManager._move_folder os source target w1 = (false, w1)
  ∧ (BackupManager.execute_backup os source target w).1 = false
  ∧ extends (λ e, is_ps_command e = false)
      w (BackupManager.execute_backup os source target w).2.
Proof.
  intros Hv He. cbv zeta.
  destruct (snapshot_world os source target w) as [Hf1 Hd1].
  assert (BackupManager._move_folder os source target
            (RollbackManager.create_rollback_point os source
               (BackupManager.actual_target_str (fs w) source target)
               (BackupManager.validate_paths os source target w).2).2
          = (false,
             (RollbackManager.create_rollback_point os source
               (BackupManager.actual_target_str (fs w) source target)
               (BackupManager.validate_paths os source target w).2).2)) as Hm.
  { apply move_folder_target_exists; rewrite Hf1; [|done].
    apply final_target_parent. by eapply validate_paths_parent. }
  split; [exact Hm|].
  rewrite execute_backup_stages. cbv zeta. rewrite Hv. cbn [negb].
  rewrite Hm. cbn [negb fst snd].
  split; [done|].
  eapply extends_trans.
  { apply (validate_paths_emits os (λ e, is_ps_command e = false)). done. }
  apply extends_trans with
    (w2 := (RollbackManager.create_rollback_point os source
              (BackupManager.actual_target_str (fs w) source target)
              (BackupManager.validate_paths os source target w).2).2).
  { rewrite create_rollback_point_eq. cbv zeta.
    destruct (json_dump_ok os); simpl.
    - eexists [_]. split; [done|]. by constructor.
    - by apply extends_refl. }
  apply rollback_emits. by intros [].
Qed.

Lemma c10_existing_effective_target_witness :
  (BackupManager.validate_paths ideal_os "/work/proj" "/cloud/backup"
     (start fs_occupied)).1.1 = true ∧
  exists_ fs_occupied
    (BackupManager.final_target_path fs_occupied "/work/proj" "/cloud/backup") = true ∧
  (BackupManager.execute_backup ideal_os "/work/proj" "/cloud/backup"
     (start fs_occupied)).1 = false.
Proof.
  assert ((BackupManager.validate_paths ideal_os "/work/proj" "/cloud/backup"
             (start fs_occupied)).1.1 = true) as Hv by (vm_compute; reflexivity).
  assert (exists_ fs_occupied
            (BackupManager.final_target_path fs_occupied "/work/proj" "/cloud/backup")
          = true) as He by (vm_compute; reflexivity).
  split; [exact Hv|]. split; [exact He|].
  exact (proj1 (proj2 (c10_existing_effective_target ideal_os "/work/proj"
                         "/cloud/backup" (start fs_occupied) Hv He))).
Defined.

(** C1, evaluated on scenario 1 ([/tmp/proj] to [/tmp/onedrive/backup], a
    platform on which every command succeeds): when the move step has
    completed the persisted record still has [backup_created = False]; the
    complete run writes [rollback.json] once, before Move-Item, and never
    again, so no record with [backup_created] or [junction_created] set is
    ever persisted; [update_rollback_status] is not called. *)
Theorem c1_ledger_not_updated_after_steps :
  let moved := run_to_moved ideal_os "/tmp/proj" "/tmp/onedrive/backup"
                 (start fs_tmp) in
  let finished := BackupManager.execute_backup ideal_os "/tmp/proj"
                    "/tmp/onedrive/backup" (start fs_tmp) in
  let r0 := RollbackManager.snapshot ideal_os fs_tmp "/tmp/proj"
              "/tmp/onedrive/backup" in
  moved.1 = true
  ∧ rollback_file moved.2 = Some r0
  ∧ backup_created r0 = false
  ∧ finished.1 = true
  ∧ rev (trace finished.2) =
      [ EvQuery (GetItemLinkType "/tmp/proj");
        EvJsonDump r0;
        EvCommand (MoveItem "/tmp/proj" "/tmp/onedrive/backup");
        EvCommand (NewItemJunction "/tmp/proj" "/tmp/onedrive/backup");
        EvQuery (GetItemLinkType "/tmp/proj");
        EvQuery (GetItemLinkType "/tmp/proj");
        EvQuery (GetItemLinkType "/tmp/proj");
        EvQuery (GetItemTarget "/tmp/proj");
        EvUnlink ].
Proof. by vm_compute. Qed.

(** C2, evaluated on scenario 1 with the process ended just after the move
    step: the next process loads the record from [rollback.json], finds
    both flags unset, runs no compensating action and reports success; the
    source is still missing and the content is still at the target. *)
Theorem c2_recovery_after_move_restores_nothing :
  let moved := run_to_moved ideal_os "/tmp/proj" "/tmp/onedrive/backup"
                 (start fs_tmp) in
  let recovered := RollbackManager.rollback ideal_os (crash moved.2) in
  moved.1 = true
  ∧ fs_tmp !! ["tmp"; "proj"] = Some (NDir ["a.txt"; "b.txt"])
  ∧ fs_tmp !! ["tmp"; "onedrive"; "backup"] = None
  ∧ recovered.1 = true
  ∧ trace recovered.2
    = EvLog INFO "Rollback completed successfully" :: trace moved.2
  ∧ fs recovered.2 !! ["tmp"; "proj"] = None
  ∧ fs recovered.2 !! ["tmp"; "onedrive"; "backup"] = Some (NDir ["a.txt"; "b.txt"]).
Proof. by vm_compute. Qed.

(** C3, as stated, fails: the request is valid, the move step fails
    because [/cloud/backup/proj] is already there, and after the automatic
    rollback the effective target exists. *)
Lemma c3_counterexample :
  (BackupManager.validate_paths ideal_os "/work/proj" "/cloud/backup"
     (start fs_occupied)).1.1 = true ∧
  (run_to_moved ideal_os "/work/proj" "/cloud/backup" (start fs_occupied)).1 = false ∧
  exists_
    (fs (BackupManager.execute_backup ideal_os "/work/proj" "/cloud/backup"
           (start fs_occupied)).2)
    (Path (BackupManager.actual_target_str fs_occupied "/work/proj" "/cloud/backup"))
  = true.
Proof. by vm_compute. Qed.

(** C3, amended: for every valid request on a source that is not a
    directory link and whose move step fails without having changed the
    filesystem, [execute_backup] returns [False] and the automatic rollback
    leaves the filesystem exactly as it was before the attempt: the source
    is the same directory with the same contents, and the effective target
    is there exactly if it was there before.  A move step that fails
    because the effective target already exists is such a step. *)
Theorem c3_failed_move_left_as_is os source target w :
  (BackupManager.validate_paths os source target w).1.1 = true →
  RollbackManager._is_junction (fs w) (Path source) = false →
  (run_to_moved os source target w).1 = false →
  (BackupManager.execute_backup os source target w).1 = false
  ∧ (fs (run_to_moved os source target w).2 = fs w →
     fs (BackupManager.execute_backup os source target w).2 = fs w)
  ∧ (exists_ (fs w) (BackupManager.final_target_path (fs w) source target) = true →
     fs (BackupManager.execute_backup os source target w).2 = fs w).
Proof.
  intros Hv Hj Hm.
  rewrite run_to_moved_stages in Hm |- *. cbv zeta in Hm |- *.
  rewrite Hv in Hm |- *. cbn [negb] in Hm |- *.
  destruct (snapshot_world os source target w) as [Hf1 Hd1].
  rewrite execute_backup_stages. cbv zeta. rewrite Hv. cbn [negb].
  rewrite Hm. cbn [negb fst snd].
  rewrite (rollback_idle os _
             (RollbackManager.snapshot os (fs w) source
                (BackupManager.actual_target_str (fs w) source target)));
    [|by rewrite move_folder_keeps_data|reflexivity|reflexivity|exact Hj].
  cbn [fst snd fs]. split; [done|]. split; [done|].
  intros He. rewrite move_folder_target_exists; [done| |by rewrite Hf1].
  rewrite Hf1. apply final_target_parent. by eapply validate_paths_parent.
Qed.

Lemma c3_failed_move_left_as_is_witness :
  (BackupManager.validate_paths ideal_os "/work/proj" "/cloud/backup"
     (start fs_occupied)).1.1 = true ∧
  RollbackManager._is_junction fs_occupied (Path "/work/proj") = false ∧
  (run_to_moved ideal_os "/work/proj" "/cloud/backup" (start fs_occupied)).1 = false ∧
  fs (BackupManager.execute_backup ideal_os "/work/proj" "/cloud/backup"
        (start fs_occupied)).2 = fs_occupied.
Proof.
  assert ((BackupManager.validate_paths ideal_os "/work/proj" "/cloud/backup"
             (start fs_occupied)).1.1 = true) as Hv by (vm_compute; reflexivity).
  assert (RollbackManager._is_junction fs_occupied (Path "/work/proj") = false)
    as Hj by (vm_compute; reflexivity).
  assert ((run_to_moved ideal_os "/work/proj" "/cloud/backup"
             (start fs_occupied)).1 = false) as Hm by (vm_compute; reflexivity).
  split; [exact Hv|]. split; [exact Hj|]. split; [exact Hm|].
  assert (exists_ fs_occupied
            (BackupManager.final_target_path fs_occupied "/work/proj" "/cloud/backup")
          = true) as He by (vm_compute; reflexivity).
  exact (proj2 (proj2 (c3_failed_move_left_as_is ideal_os "/work/proj"
                         "/cloud/backup" (start fs_occupied) Hv Hj Hm)) He).
Defined.

Section Verification.

Variable os : OS.

(** A passing verification has seen the target. *)
Lemma verify_backup_target_exists source target w :
  (BackupManager._verify_backup os source target w).1 = true →
  exists_ (fs w) (Path target) = true.
Proof.
  unfold BackupManager._verify_backup. rewrite bind_eq.
  pose proof (is_junction_stable os fs source (λ _ _ _ _ _, eq_refl) w) as Hf.
  destruct (PathUtils.is_junction os source w) as [[] wj]; simpl in Hf |- *;
    [|done].
  rewrite bind_eq. cbv beta.
  change (get_fs wj).1 with (fs wj). change (get_fs wj).2 with wj.
  rewrite Hf. by destruct (exists_ (fs w) (Path target)).
Qed.

Lemma clear_rollback_point_keeps_fs :
  stable fs (RollbackManager.clear_rollback_point os).
Proof. unfold RollbackManager.clear_rollback_point. repeat step_stable. Qed.

End Verification.

(** P4 of the specification. *)
Example p4_destination_nesting :
  BackupManager.actual_target_str fs_cloud "/work/proj" "/cloud/backup"
  = "/cloud/backup/proj".
Proof. reflexivity. Qed.

(** C8: the first compensating step leaves a junction in place.
    [rollback] is run on the filesystem a finished relocation leaves, with
    a record whose flags [junction_created] and [backup_created] are set.
    PowerShell reports the source as a junction, but [_remove_junction]
    asks [_is_junction], which asks pathlib for a symbolic link, and a
    junction is none: the step returns True without running rmdir, on
    every platform.  The move back then meets the junction still at the
    source and fails; [rollback] returns False, with the junction and the
    moved content where they were.  With a directory symbolic link at the
    source the same call removes the link and moves the content back. *)
Theorem c8_rollback_leaves_the_junction :
  let w := World fs_relocated (Some record_relocated) None [] in
  let after := RollbackManager.rollback ideal_os w in
  let w_link := World fs_relocated_symlink (Some record_relocated) None [] in
  let after_link := RollbackManager.rollback ideal_os w_link in
  PathUtils.is_junction_of ideal_os fs_relocated "/tmp/proj" = true
  ∧ (∀ os, RollbackManager._remove_junction os (Path "/tmp/proj") w = (true, w))
  ∧ after.1 = false
  ∧ rev (trace after.2)
    = [EvMkdir ["tmp"];
       EvShutilMove ["tmp"; "onedrive"; "backup"] ["tmp"; "proj"];
       EvLog ERROR "Rollback completed with errors"]
  ∧ fs after.2 !! ["tmp"; "proj"]
    = Some (NLink Junction ["tmp"; "onedrive"; "backup"])
  ∧ fs after.2 !! ["tmp"; "onedrive"; "backup"] = Some (NDir ["a.txt"; "b.txt"])
  ∧ after_link.1 = true
  ∧ rev (trace after_link.2)
    = [EvShell (Rmdir "/tmp/proj");
       EvMkdir ["tmp"];
       EvShutilMove ["tmp"; "onedrive"; "backup"] ["tmp"; "proj"];
       EvLog INFO "Rollback completed successfully"]
  ∧ fs after_link.2 !! ["tmp"; "proj"] = Some (NDir ["a.txt"; "b.txt"])
  ∧ fs after_link.2 !! ["tmp"; "onedrive"; "backup"] = None.
Proof.
  cbv zeta. split; [by vm_compute|]. split.
  { intros os. unfold RollbackManager._remove_junction. rewrite bind_eq.
    by vm_compute. }
  by vm_compute.
Qed.




(** * Further properties of the code *)

Section SafeFilename.

Import Filenames.

Lemma not_in_list {A} `{EqDecision A} (x : A) (l : list A) :
  bool_decide (x ∈ l) = false → x ∉ l.
Proof. apply bool_decide_eq_false_1. Qed.

Lemma sanitized_cons a s :
  foldl (λ acc c, replace c "_"%char acc) (String a s) invalid_chars =
  String (if bool_decide (a ∈ invalid_chars) then "_"%char else a)
    (foldl (λ acc c, replace c "_"%char acc) s invalid_chars).
Proof.
  unfold invalid_chars. cbn [foldl replace]. f_equal.
  repeat match goal with
  | |- context [Ascii.eqb a ?c] =>
      destruct (Ascii.eqb a c) eqn:E;
        [apply Ascii.eqb_eq in E as ->; by vm_compute
        |apply Ascii.eqb_neq in E; revert E]
  end.
  intros. rewrite bool_decide_eq_false_2; [done|].
  rewrite !elem_of_cons, elem_of_nil. tauto.
Qed.

Lemma sanitized_nil :
  foldl (λ acc c, replace c "_"%char acc) EmptyString invalid_chars = EmptyString.
Proof. reflexivity. Qed.

Lemma has_char_false_iff c s :
  has_char c s = false ↔ ∀ a, has_char a s = true → a ≠ c.
Proof.
  split.
  - intros H a Ha ->. congruence.
  - intros H. destruct (has_char c s) eqn:E; [|done]. by destruct (H c E).
Qed.

Lemma sanitized_has_no_invalid c s :
  c ∈ invalid_chars →
  has_char c (foldl (λ acc c, replace c "_"%char acc) s invalid_chars) = false.
Proof.
  intros Hc. induction s as [|a s IH].
  - done.
  - rewrite sanitized_cons. cbn [has_char]. rewrite IH, orb_false_r.
    apply Ascii.eqb_neq. case_bool_decide as Ha.
    + intros <-. revert Hc. apply not_in_list. by vm_compute.
    + by intros ->.
Qed.

Lemma sanitized_id s :
  (∀ c, c ∈ invalid_chars → has_char c s = false) →
  foldl (λ acc c, replace c "_"%char acc) s invalid_chars = s.
Proof.
  induction s as [|a s IH]; intros H.
  - done.
  - rewrite sanitized_cons, IH.
    + case_bool_decide as Ha; [|done].
      specialize (H a Ha). cbn [has_char] in H. by rewrite Ascii.eqb_refl in H.
    + intros c Hc. specialize (H c Hc). cbn [has_char] in H.
      by apply orb_false_iff in H as [_ ?].
Qed.

Lemma has_char_rstrip l c s :
  has_char c (rstrip l s) = true → has_char c s = true.
Proof.
  induction s as [|a s IH]; [done|]. cbn [rstrip has_char].
  destruct (rstrip l s) as [|b r] eqn:E.
  - case_bool_decide; [done|]. cbn [has_char]. rewrite orb_false_r.
    intros ->. done.
  - cbn [has_char] in *. intros [->|H]%orb_true_iff; [done|].
    rewrite IH; [by rewrite orb_true_r|done].
Qed.

Lemma rstrip_idemp l s : rstrip l (rstrip l s) = rstrip l s.
Proof.
  induction s as [|a s IH]; [done|]. cbn [rstrip].
  destruct (rstrip l s) as [|b r] eqn:E.
  - case_bool_decide as Ha; [done|]. cbn [rstrip]. by rewrite bool_decide_eq_false_2.
  - cbn [rstrip] in *. by rewrite IH.
Qed.

Lemma rstrip_empty_iff s :
  rstrip [ "."; " " ]%char s = EmptyString ↔ dots_and_spaces s = true.
Proof.
  induction s as [|a s IH]; [done|]. cbn [rstrip dots_and_spaces].
  destruct (rstrip _ s) as [|b r] eqn:E.
  - case_bool_decide; simpl.
    + split; [intros _; by apply IH|done].
    + done.
  - split; [done|]. intros [_ H]%andb_true_iff. by apply IH in H.
Qed.

Lemma sanitized_dots_and_spaces s :
  dots_and_spaces (foldl (λ acc c, replace c "_"%char acc) s invalid_chars)
  = dots_and_spaces s.
Proof.
  induction s as [|a s IH]; [done|].
  rewrite sanitized_cons. cbn [dots_and_spaces]. rewrite IH.
  destruct (bool_decide (a ∈ invalid_chars)) eqn:Ha; [|done].
  apply bool_decide_eq_true in Ha. revert Ha. unfold invalid_chars.
  rewrite !elem_of_cons, elem_of_nil.
  intros [->|[->|[->|[->|[->|[->|[->|[->|[->|[]]]]]]]]]]; by vm_compute.
Qed.

Lemma underscore_not_reserved s :
  upper (String "_"%char s) ∉ reserved_names.
Proof.
  cbn [upper]. change (upper_ascii "_") with "_"%char.
  unfold reserved_names. rewrite !elem_of_cons, elem_of_nil.
  intros H. repeat (destruct H as [H|H]; [discriminate|]). done.
Qed.

Lemma reserved_nonempty s : upper s ∈ reserved_names → s ≠ EmptyString.
Proof. intros H ->. revert H. apply not_in_list. by vm_compute. Qed.

Lemma rstrip_cons_nonempty l a s :
  rstrip l s = s → s ≠ EmptyString → rstrip l (String a s) = String a s.
Proof.
  intros H Hs. cbn [rstrip]. rewrite H. by destruct s.
Qed.

Lemma get_safe_filename_facts s :
  (∀ c, c ∈ invalid_chars → has_char c (get_safe_filename s) = false)
  ∧ rstrip [ "."; " " ]%char (get_safe_filename s) = get_safe_filename s
  ∧ upper (get_safe_filename s) ∉ reserved_names.
Proof.
  unfold get_safe_filename. cbv zeta.
  set (t := rstrip _ (foldl _ s invalid_chars)).
  assert (∀ c, c ∈ invalid_chars → has_char c t = false) as Ht.
  { intros c Hc. destruct (has_char c t) eqn:E; [|done].
    apply has_char_rstrip in E. by rewrite sanitized_has_no_invalid in E. }
  assert (rstrip [ "."; " " ]%char t = t) as Hr by apply rstrip_idemp.
  case_bool_decide as Hres.
  - split; [|split].
    + intros c Hc. cbn [has_char]. rewrite (Ht c Hc), orb_false_r.
      apply Ascii.eqb_neq. intros <-. revert Hc.
      apply not_in_list. by vm_compute.
    + apply rstrip_cons_nonempty; [done|]. by eapply reserved_nonempty.
    + apply underscore_not_reserved.
  - done.
Qed.

(** X16: whatever the input, the name [get_safe_filename] returns
    contains none of the nine characters of [invalid_chars], does not end
    with a dot or a space, and is not a reserved device name in any letter
    case. *)
Theorem get_safe_filename_is_safe s :
  Forall (λ c, has_char c (get_safe_filename s) = false) invalid_chars
  ∧ rstrip [ "."; " " ]%char (get_safe_filename s) = get_safe_filename s
  ∧ bool_decide (upper (get_safe_filename s) ∈ reserved_names) = false.
Proof.
  destruct (get_safe_filename_facts s) as (Hc & Hr & Hn).
  split; [by apply Forall_forall|]. split; [done|].
  by apply bool_decide_eq_false.
Qed.

(** X17: [get_safe_filename] is idempotent: a name it returned is
    returned unchanged. *)
Theorem get_safe_filename_idempotent s :
  get_safe_filename (get_safe_filename s) = get_safe_filename s.
Proof.
  destruct (get_safe_filename_facts s) as (Hc & Hr & Hn).
  unfold get_safe_filename at 1. cbv zeta.
  rewrite sanitized_id by done. rewrite Hr.
  by rewrite bool_decide_eq_false_2.
Qed.

Lemma get_safe_filename_empty_iff s :
  get_safe_filename s = EmptyString ↔ dots_and_spaces s = true.
Proof.
  unfold get_safe_filename. cbv zeta.
  rewrite <- (sanitized_dots_and_spaces s), <- rstrip_empty_iff.
  case_bool_decide as Hres; [|done].
  split; [done|]. intros E. rewrite E in Hres. exfalso. revert Hres.
  apply not_in_list. by vm_compute.
Qed.

(** X18: [get_safe_filename] returns the empty string exactly for the
    inputs made of dots and spaces only (the empty input included). *)
Theorem get_safe_filename_empty s :
  bool_decide (get_safe_filename s = EmptyString) = dots_and_spaces s.
Proof.
  destruct (dots_and_spaces s) eqn:E.
  - apply bool_decide_eq_true. by apply get_safe_filename_empty_iff.
  - apply bool_decide_eq_false. intros H.
    apply get_safe_filename_empty_iff in H. congruence.
Qed.

End SafeFilename.

Section MoreInspection.

Variable os : OS.

Lemma get_junction_target_result p w :
  (PathUtils.get_junction_target os p w).1 = junction_target_of os (fs w) p.
Proof.
  unfold PathUtils.get_junction_target, junction_target_of. rewrite bind_eq.
  rewrite is_junction_result.
  pose proof (is_junction_stable os fs p (λ _ _ _ _ _, eq_refl) w) as Hf.
  destruct (PathUtils.is_junction_of os (fs w) p); simpl; [|done].
  rewrite bind_eq. unfold ps_query. rewrite !bind_eq. simpl. rewrite Hf.
  destruct (run_query os (GetItemTarget p) (fs w)) as [success output].
  by destruct (success && negb (all_space output)).
Qed.

(** Without an existing path there is no query. *)
Lemma is_junction_missing p w :
  exists_ (fs w) (Path p) = false → PathUtils.is_junction os p w = (false, w).
Proof.
  intros He. unfold PathUtils.is_junction. rewrite bind_eq. simpl.
  by rewrite He, orb_true_r.
Qed.

Lemma verify_backup_true source target w :
  (BackupManager._verify_backup os source target w).1 = true →
  PathUtils.is_junction_of os (fs w) source = true
  ∧ exists_ (fs w) (Path target) = true
  ∧ ∃ junction_target,
      junction_target_of os (fs w) source = Some junction_target
      ∧ resolve (fs w) (Path junction_target) = resolve (fs w) (Path target).
Proof.
  unfold BackupManager._verify_backup. rewrite bind_eq.
  pose proof (is_junction_stable os fs source (λ _ _ _ _ _, eq_refl) w) as Hf.
  pose proof (is_junction_result os source w) as Hj.
  destruct (PathUtils.is_junction os source w) as [[] wj]; simpl in Hf, Hj |- *;
    [|done].
  rewrite bind_eq. cbv beta.
  change (get_fs wj).1 with (fs wj). change (get_fs wj).2 with wj.
  rewrite Hf. destruct (exists_ (fs w) (Path target)); simpl; [|done].
  rewrite bind_eq.
  pose proof (get_junction_target_stable os fs source (λ _ _ _ _ _, eq_refl) wj) as Hf2.
  pose proof (get_junction_target_result source wj) as Ht.
  destruct (PathUtils.get_junction_target os source wj) as [[jt|] wt];
    simpl in Hf2, Ht |- *; [|done].
  destruct (bool_decide (jt = EmptyString)); [done|].
  rewrite bind_eq. cbv beta.
  change (get_fs wt).1 with (fs wt). change (get_fs wt).2 with wt.
  rewrite Hf2, Hf. case_bool_decide as Hr; [done|]. intros _.
  rewrite Hf in Ht. split; [by symmetry|]. split; [done|].
  exists jt. split; [by symmetry|done].
Qed.

(** An accepted request, fact by fact. *)
Lemma validate_source_path_ok f p msg :
  PathUtils.validate_source_path os f p = (true, msg) →
  all_space p = false
  ∧ exists_ f (Path p) = true
  ∧ is_dir f (Path p) = true
  ∧ access_r os (Path p) = true
  ∧ String.length (str (resolve f (Path p))) ≤ 260.
Proof.
  unfold PathUtils.validate_source_path.
  destruct (all_space p); [done|].
  destruct (exists_ f (Path p)); [|done].
  destruct (is_dir f (Path p)); [|done].
  destruct (access_r os (Path p)); [|done]. simpl.
  destruct (iterdir os (Path p)); try done.
  case_bool_decide; [done|]. intros _. repeat split; lia.
Qed.

Lemma validate_target_path_ok f p msg :
  PathUtils.validate_target_path os f p = (true, msg) →
  all_space p = false
  ∧ is_file f (Path p) = false
  ∧ exists_ f (parent (Path p)) = true
  ∧ access_w os (parent (Path p)) = true
  ∧ String.length (str (resolve f (Path p))) ≤ 260.
Proof.
  unfold PathUtils.validate_target_path.
  destruct (all_space p); [done|].
  assert (∀ b, (if exists_ f (parent (Path p)) then b else false) = true →
               exists_ f (parent (Path p)) = true) as _ by (by destruct (exists_ _ _)).
  destruct (exists_ f (Path p)) eqn:He.
  - destruct (is_file f (Path p)); [done|].
    destruct (iterdir os (Path p)); try done.
    destruct (exists_ f (parent (Path p))); [|done].
    destruct (access_w os (parent (Path p))); [|done]. simpl.
    destruct (PathUtils._check_disk_space os (parent (Path p))); [|done]. simpl.
    case_bool_decide; [done|]. intros _. repeat split; lia.
  - assert (is_file f (Path p) = false) as ->.
    { unfold is_file, exists_ in *. by destruct (follow f (Path p)). }
    destruct (exists_ f (parent (Path p))); [|done].
    destruct (access_w os (parent (Path p))); [|done]. simpl.
    destruct (PathUtils._check_disk_space os (parent (Path p))); [|done]. simpl.
    case_bool_decide; [done|]. intros _. repeat split; lia.
Qed.

End MoreInspection.



Section Blind.

Variable os : OS.
Context {X : Type} (π : world → X) (Hπ : blind π).

Lemma blind_eta w f t : π (World f (rollback_file w) (rollback_data w) t) = π w.
Proof. destruct w. apply Hπ. Qed.

Lemma stable_blind_query q : stable π (ps_query os q).
Proof. intros w. unfold ps_query. rewrite !bind_eq. simpl. apply blind_eta. Qed.

Lemma stable_blind_command c : stable π (ps_command os c).
Proof. intros w. unfold ps_command. rewrite !bind_eq. simpl. apply blind_eta. Qed.

Lemma stable_blind_shell c : stable π (shell os c).
Proof. intros w. unfold shell. rewrite !bind_eq. simpl. apply blind_eta. Qed.

Lemma stable_blind_mkdir p : stable π (mkdir os p).
Proof.
  intros w. unfold mkdir. rewrite !bind_eq. simpl.
  destruct (mkdir_parents os p (fs w)); simpl; apply blind_eta.
Qed.

Lemma stable_blind_move s d : stable π (move os s d).
Proof.
  intros w. unfold move. rewrite !bind_eq. simpl.
  destruct (shutil_move os s d (fs w)); simpl; apply blind_eta.
Qed.

Lemma stable_blind_emit e : stable π (emit e).
Proof. intros w. simpl. apply blind_eta. Qed.

Lemma stable_blind_get_fs : stable π get_fs.
Proof. by intros w. Qed.

Ltac step_blind :=
  first
    [ apply stable_blind_query | apply stable_blind_command
    | apply stable_blind_shell | apply stable_blind_mkdir
    | apply stable_blind_move | apply stable_blind_emit
    | apply stable_blind_get_fs
    | match goal with
      | |- stable _ (mret _) => apply stable_ret
      | |- stable _ (_ ≫= _) => apply stable_bind; [|intros ?]
      | |- stable _ (if ?b then _ else _) => destruct b
      | |- stable _ (match ?x with _ => _ end) => destruct x
      end ].

Lemma stable_blind_is_junction p : stable π (PathUtils.is_junction os p).
Proof. unfold PathUtils.is_junction. repeat step_blind. Qed.

Lemma stable_blind_get_junction_target p :
  stable π (PathUtils.get_junction_target os p).
Proof.
  unfold PathUtils.get_junction_target.
  repeat first [apply stable_blind_is_junction | step_blind].
Qed.

Lemma stable_blind_move_folder source target :
  stable π (BackupManager._move_folder os source target).
Proof. unfold BackupManager._move_folder. repeat step_blind. Qed.

Lemma stable_blind_create_junction source target :
  stable π (BackupManager._create_junction os source target).
Proof.
  unfold BackupManager._create_junction.
  repeat first [apply stable_blind_is_junction | step_blind].
Qed.

Lemma stable_blind_verify_backup source target :
  stable π (BackupManager._verify_backup os source target).
Proof.
  unfold BackupManager._verify_backup.
  repeat first [apply stable_blind_is_junction
               | apply stable_blind_get_junction_target | step_blind].
Qed.

Lemma stable_blind_run_step s : stable π (run_step os s).
Proof.
  destruct s as [p|t p|p [o|]]; simpl;
    unfold RollbackManager._remove_junction,
      RollbackManager._move_back_from_target,
      RollbackManager._restore_junction; repeat step_blind.
Qed.

Lemma stable_blind_run_all steps : ∀ success, stable π (run_all os steps success).
Proof.
  induction steps as [|s rest IH]; intros success; simpl.
  - apply stable_ret.
  - apply stable_bind; [apply stable_blind_run_step|intros ?; apply IH].
Qed.

End Blind.

Lemma blind_rollback_data : blind rollback_data.
Proof. by intros ??????. Qed.

Lemma blind_rollback_file : blind rollback_file.
Proof. by intros ??????. Qed.

Section Ledger.

Variable os : OS.

(** [rollback] keeps the record it ran in memory and never touches the
    file. *)
Lemma rollback_keeps_record w r :
  rollback_data w = Some r →
  rollback_data (RollbackManager.rollback os w).2 = Some r
  ∧ rollback_file (RollbackManager.rollback os w).2 = rollback_file w.
Proof.
  intros Hd. split; [|apply rollback_keeps_file].
  assert (RollbackManager.load w = (Some r, w)) as Hl.
  { unfold RollbackManager.load. rewrite bind_eq. simpl. by rewrite Hd. }
  rewrite (rollback_eq_run_all os w r w Hl). cbv zeta. cbn [fst snd].
  rewrite (stable_blind_emit rollback_data blind_rollback_data).
  by rewrite (stable_blind_run_all os rollback_data blind_rollback_data).
Qed.

End Ledger.

Section RunOutcome.

Variable os : OS.

Lemma clear_rollback_point_clears w :
  rollback_data (RollbackManager.clear_rollback_point os w).2 = None
  ∧ (unlink_ok os = true →
     rollback_file (RollbackManager.clear_rollback_point os w).2 = None).
Proof.
  unfold RollbackManager.clear_rollback_point. rewrite !bind_eq. simpl.
  destruct (rollback_file w) eqn:Hf; simpl.
  - by destruct (unlink_ok os).
  - done.
Qed.

Lemma execute_backup_success_facts source target w :
  (BackupManager.execute_backup os source target w).1 = true →
  let w' := (BackupManager.execute_backup os source target w).2 in
  let eff := BackupManager.actual_target_str (fs w) source target in
  (PathUtils.is_junction os source w').1 = true
  ∧ exists_ (fs w') (Path eff) = true
  ∧ ∃ junction_target,
      (PathUtils.get_junction_target os source w').1 = Some junction_target
      ∧ resolve (fs w') (Path junction_target) = resolve (fs w') (Path eff).
Proof.
  intros Hs. cbv zeta. rewrite is_junction_result.
  assert (∀ jt, (PathUtils.get_junction_target os source
                   (BackupManager.execute_backup os source target w).2).1 = jt
               ↔ junction_target_of os
                   (fs (BackupManager.execute_backup os source target w).2)
                   source = jt) as Ht
    by (intros jt; by rewrite get_junction_target_result).
  cut (PathUtils.is_junction_of os
         (fs (BackupManager.execute_backup os source target w).2) source = true
       ∧ exists_ (fs (BackupManager.execute_backup os source target w).2)
           (Path (BackupManager.actual_target_str (fs w) source target)) = true
       ∧ ∃ junction_target,
           junction_target_of os
             (fs (BackupManager.execute_backup os source target w).2) source
           = Some junction_target
           ∧ resolve (fs (BackupManager.execute_backup os source target w).2)
               (Path junction_target)
             = resolve (fs (BackupManager.execute_backup os source target w).2)
                 (Path (BackupManager.actual_target_str (fs w) source target))).
  { intros (H1 & H2 & jt & H3 & H4). split; [done|]. split; [done|].
    exists jt. split; [by apply Ht|done]. }
  clear Ht. revert Hs.
  rewrite execute_backup_stages. cbv zeta.
  destruct (negb _); [done|].
  destruct (negb _); [done|].
  destruct (negb _); [done|].
  destruct (negb _) eqn:Hvf; [done|]. intros _. cbn [snd].
  match goal with
  | |- context [fs (RollbackManager.clear_rollback_point os ?wv).2] =>
      rewrite (clear_rollback_point_keeps_fs os wv : fs _ = fs wv)
  end.
  match goal with
  | |- context [fs (BackupManager._verify_backup os ?s ?t ?wj).2] =>
      rewrite (verify_backup_keeps_fs os s t wj : fs _ = fs wj)
  end.
  apply verify_backup_true. by apply negb_false_iff.
Qed.

(** X1: after a successful run, in the filesystem it leaves, the path
    utilities report the source as a junction, the effective target
    exists, and the junction target PowerShell reports resolves to the
    same path as the effective target. *)
Theorem execute_backup_success_postcondition source target w :
  (BackupManager.execute_backup os source target w).1 = true →
  let w' := (BackupManager.execute_backup os source target w).2 in
  let eff := BackupManager.actual_target_str (fs w) source target in
  (PathUtils.is_junction os source w').1 = true
  ∧ exists_ (fs w') (Path eff) = true
  ∧ ∃ junction_target,
      (PathUtils.get_junction_target os source w').1 = Some junction_target
      ∧ resolve (fs w') (Path junction_target) = resolve (fs w') (Path eff).
Proof. apply execute_backup_success_facts. Qed.

Lemma execute_backup_success_clears source target w :
  (BackupManager.execute_backup os source target w).1 = true →
  rollback_data (BackupManager.execute_backup os source target w).2 = None
  ∧ (unlink_ok os = true →
     rollback_file (BackupManager.execute_backup os source target w).2 = None).
Proof.
  rewrite execute_backup_stages. cbv zeta.
  destruct (negb _); [done|].
  destruct (negb _); [done|].
  destruct (negb _); [done|].
  destruct (negb _); [done|]. intros _. cbn [snd].
  apply clear_rollback_point_clears.
Qed.

(** X2: a successful run leaves no record in memory, and none on disk
    when removing [rollback.json] succeeds. *)
Theorem execute_backup_success_clears_record source target w :
  (BackupManager.execute_backup os source target w).1 = true →
  rollback_data (BackupManager.execute_backup os source target w).2 = None
  ∧ (unlink_ok os = true →
     rollback_file (BackupManager.execute_backup os source target w).2 = None).
Proof. apply execute_backup_success_clears. Qed.

(** X3: a valid request that fails leaves its record behind: after the
    automatic rollback the snapshot is still in memory and, when it could
    be written, still in [rollback.json]; nothing clears it. *)
Theorem execute_backup_failure_keeps_record source target w :
  (BackupManager.validate_paths os source target w).1.1 = true →
  (BackupManager.execute_backup os source target w).1 = false →
  let r := RollbackManager.snapshot os (fs w) source
             (BackupManager.actual_target_str (fs w) source target) in
  rollback_data (BackupManager.execute_backup os source target w).2 = Some r
  ∧ (json_dump_ok os = true →
     rollback_file (BackupManager.execute_backup os source target w).2 = Some r).
Proof.
  intros Hv. rewrite execute_backup_stages. cbv zeta. rewrite Hv. cbn [negb].
  destruct (snapshot_world os source target w) as [_ Hd1].
  set (eff := BackupManager.actual_target_str (fs w) source target) in *.
  set (r := RollbackManager.snapshot os (fs w) source eff) in *.
  assert (json_dump_ok os = true →
          rollback_file (RollbackManager.create_rollback_point os source eff
             (BackupManager.validate_paths os source target w).2).2 = Some r) as Hf1.
  { intros Hj. rewrite create_rollback_point_eq. cbv zeta. rewrite Hj. simpl.
    subst r. by rewrite (validate_paths_stable os fs source target
                           (λ _ _ _ _ _, eq_refl) w). }
  set (w1 := (RollbackManager.create_rollback_point os source eff
                (BackupManager.validate_paths os source target w).2).2) in *.
  set (mv := BackupManager._move_folder os source target w1).
  assert (rollback_data mv.2 = Some r
          ∧ (json_dump_ok os = true → rollback_file mv.2 = Some r)) as [Hd2 Hf2].
  { subst mv. rewrite !stable_blind_move_folder
      by (apply blind_rollback_data || apply blind_rollback_file). done. }
  destruct (negb mv.1).
  { intros _. cbn [snd]. destruct (rollback_keeps_record os mv.2 r Hd2) as [-> ->].
    done. }
  set (jn := BackupManager._create_junction os source eff mv.2).
  assert (rollback_data jn.2 = Some r
          ∧ (json_dump_ok os = true → rollback_file jn.2 = Some r)) as [Hd3 Hf3].
  { subst jn. rewrite !stable_blind_create_junction
      by (apply blind_rollback_data || apply blind_rollback_file). done. }
  destruct (negb jn.1).
  { intros _. cbn [snd]. destruct (rollback_keeps_record os jn.2 r Hd3) as [-> ->].
    done. }
  set (vf := BackupManager._verify_backup os source eff jn.2).
  assert (rollback_data vf.2 = Some r
          ∧ (json_dump_ok os = true → rollback_file vf.2 = Some r)) as [Hd4 Hf4].
  { subst vf. rewrite !stable_blind_verify_backup
      by (apply blind_rollback_data || apply blind_rollback_file). done. }
  destruct (negb vf.1); [|done].
  intros _. cbn [snd]. destruct (rollback_keeps_record os vf.2 r Hd4) as [-> ->].
  done.
Qed.

End RunOutcome.

Section Edges.

Variable os : OS.

Lemma validate_paths_accepted_facts source target w :
  (BackupManager.validate_paths os source target w).1.1 = true →
  all_space source = false
  ∧ exists_ (fs w) (Path source) = true
  ∧ is_dir (fs w) (Path source) = true
  ∧ access_r os (Path source) = true
  ∧ String.length (str (resolve (fs w) (Path source))) ≤ 260
  ∧ (PathUtils.is_junction os source w).1 = false
  ∧ all_space target = false
  ∧ is_file (fs w) (Path target) = false
  ∧ exists_ (fs w) (parent (Path target)) = true
  ∧ access_w os (parent (Path target)) = true
  ∧ String.length (str (resolve (fs w) (Path target))) ≤ 260.
Proof.
  unfold BackupManager.validate_paths. rewrite bind_eq. cbv beta.
  change (get_fs w).1 with (fs w). change (get_fs w).2 with w.
  destruct (PathUtils.validate_source_path os (fs w) source) as [[] ms] eqn:Es;
    simpl; [|done].
  destruct (PathUtils.validate_target_path os (fs w) target) as [[] mt] eqn:Et;
    simpl; [|done].
  rewrite bind_eq.
  pose proof (is_junction_result os source w) as Hj.
  destruct (PathUtils.is_junction os source w) as [[] wj]; simpl in Hj |- *;
    [done|]. intros _.
  destruct (validate_source_path_ok os _ _ _ Es) as (?&?&?&?&?).
  destruct (validate_target_path_ok os _ _ _ Et) as (?&?&?&?&?).
  repeat split; done.
Qed.

(** X6: what an accepted request guarantees: the source is not blank,
    exists, is a readable directory of at most 260 characters once
    resolved, and is not reported as a junction; the target is not blank,
    is not a file, has an existing writable parent and at most 260
    characters once resolved. *)
Theorem validate_paths_accepts source target w :
  (BackupManager.validate_paths os source target w).1.1 = true →
  all_space source = false
  ∧ exists_ (fs w) (Path source) = true
  ∧ is_dir (fs w) (Path source) = true
  ∧ access_r os (Path source) = true
  ∧ String.length (str (resolve (fs w) (Path source))) ≤ 260
  ∧ (PathUtils.is_junction os source w).1 = false
  ∧ all_space target = false
  ∧ is_file (fs w) (Path target) = false
  ∧ exists_ (fs w) (parent (Path target)) = true
  ∧ access_w os (parent (Path target)) = true
  ∧ String.length (str (resolve (fs w) (Path target))) ≤ 260.
Proof. apply validate_paths_accepted_facts. Qed.

(** X5: with an empty or whitespace-only source or target,
    [execute_backup] returns [False] and does nothing at all: no query, no
    snapshot, no command, no rollback. *)
Theorem execute_backup_blank_path source target w :
  all_space source = true ∨ all_space target = true →
  BackupManager.execute_backup os source target w = (false, w).
Proof.
  intros Hb.
  assert (BackupManager.validate_paths os source target w
          = ((BackupManager.validate_paths os source target w).1, w)) as Hw.
  { unfold BackupManager.validate_paths. rewrite bind_eq. cbv beta.
    change (get_fs w).1 with (fs w). change (get_fs w).2 with w.
    destruct (PathUtils.validate_source_path os (fs w) source) as [[] ms] eqn:Es;
      simpl; [|done].
    apply validate_source_path_ok in Es as (Hs & _).
    destruct Hb as [Hb|Hb]; [congruence|].
    unfold PathUtils.validate_target_path. by rewrite Hb. }
  assert ((BackupManager.validate_paths os source target w).1.1 = false) as Hv.
  { destruct (BackupManager.validate_paths os source target w).1.1 eqn:E; [|done].
    apply validate_paths_accepted_facts in E as (?&?&?&?&?&?&?&?).
    destruct Hb; congruence. }
  rewrite execute_backup_stages. cbv zeta. rewrite Hv. simpl. by rewrite Hw.
Qed.

(** X9: for a path that does not exist (a junction whose target is gone
    counts as such, since the existence test follows the link)
    [is_junction] answers [False] and [get_junction_target] answers
    [None], and PowerShell is not asked. *)
Theorem is_junction_of_missing_path p w :
  exists_ (fs w) (Path p) = false →
  PathUtils.is_junction os p w = (false, w)
  ∧ PathUtils.get_junction_target os p w = (None, w).
Proof.
  intros He. pose proof (is_junction_missing os p w He) as Hj.
  split; [done|].
  unfold PathUtils.get_junction_target. by rewrite bind_eq, Hj.
Qed.

End Edges.

Section Strip.

Lemma all_space_lstrip s : all_space (lstrip s) = all_space s.
Proof.
  induction s as [|c s IH]; [done|]. simpl.
  destruct (Ascii.is_space c) eqn:E; simpl; [done|by rewrite E].
Qed.

Lemma all_space_rev_app s : ∀ acc,
  all_space (String.rev_app s acc) = all_space s && all_space acc.
Proof.
  induction s as [|c s IH]; intros acc; simpl; [done|].
  rewrite IH. simpl. destruct (Ascii.is_space c), (all_space s); simpl; auto.
Qed.

Lemma all_space_strip s : all_space (strip s) = all_space s.
Proof.
  unfold strip, String.rev.
  by rewrite all_space_rev_app, all_space_lstrip, all_space_rev_app,
    all_space_lstrip, !andb_true_r.
Qed.

(** X10: a junction target returned by [get_junction_target] is never
    empty or blank; a blank answer of PowerShell gives [None]. *)
Theorem get_junction_target_is_not_blank os p w t :
  (PathUtils.get_junction_target os p w).1 = Some t → all_space t = false.
Proof.
  rewrite get_junction_target_result. unfold junction_target_of.
  destruct (PathUtils.is_junction_of os (fs w) p); [|done].
  destruct (run_query os (GetItemTarget p) (fs w)) as [success output].
  destruct success; simpl; [|done].
  destruct (all_space output) eqn:E; simpl; [done|]. intros [= <-].
  by rewrite all_space_strip.
Qed.

End Strip.

Section Status.

Variable os : OS.

(** X11: with a record in memory and a writable file,
    [update_rollback_status] persists the update: a new process loads the
    record with the two flags as given and every other field as before. *)
Theorem update_rollback_status_round_trip bc jc w r :
  rollback_data w = Some r →
  json_dump_ok os = true →
  let w' := (RollbackManager.update_rollback_status os bc jc w).2 in
  (RollbackManager.load (crash w')).1 = Some (set_status bc jc r)
  ∧ fs w' = fs w
  ∧ backup_created (set_status bc jc r) = bc
  ∧ junction_created (set_status bc jc r) = jc
  ∧ set_status (backup_created r) (junction_created r) (set_status bc jc r) = r.
Proof.
  intros Hd Hj. cbv zeta.
  unfold RollbackManager.update_rollback_status, RollbackManager.json_dump.
  destruct w as [f rf rd t]. simpl in Hd. subst rd. rewrite Hj.
  repeat split. by destruct r.
Qed.

(** X12: without a record in memory [update_rollback_status] does
    nothing, even when a record is on disk: the file is not updated. *)
Theorem update_rollback_status_without_record bc jc w :
  rollback_data w = None →
  RollbackManager.update_rollback_status os bc jc w = (tt, w).
Proof.
  intros Hd. unfold RollbackManager.update_rollback_status.
  rewrite bind_eq. simpl. by rewrite Hd.
Qed.

(** X13: every call of [update_rollback_status] overwrites both flags:
    after two calls the record in memory and on disk has the flags of the
    second call, whatever the first one set. *)
Theorem update_rollback_status_last_wins bc1 jc1 bc2 jc2 w r :
  rollback_data w = Some r →
  json_dump_ok os = true →
  let twice := (RollbackManager.update_rollback_status os bc2 jc2
                  (RollbackManager.update_rollback_status os bc1 jc1 w).2).2 in
  rollback_data twice = Some (set_status bc2 jc2 r)
  ∧ rollback_file twice = Some (set_status bc2 jc2 r).
Proof.
  intros Hd Hj. cbv zeta.
  unfold RollbackManager.update_rollback_status, RollbackManager.json_dump.
  destruct w as [f rf rd t]. simpl in Hd. subst rd. rewrite Hj. done.
Qed.

(** X14: [rollback] does not consume the record: the record it ran stays
    in memory and [rollback.json] is left exactly as it was. *)
Theorem rollback_keeps_the_record w r :
  (RollbackManager.load w).1 = Some r →
  rollback_data (RollbackManager.rollback os w).2 = Some r
  ∧ rollback_file (RollbackManager.rollback os w).2 = rollback_file w.
Proof.
  intros Hl. split; [|apply rollback_keeps_file].
  assert (rollback_data (RollbackManager.load w).2 = Some r) as Hd.
  { revert Hl. destruct w as [f rf [rd|] t]; simpl; [by intros [= ->]|].
    destruct rf; simpl; [by intros [= ->]|done]. }
  rewrite (rollback_eq_run_all os w r (RollbackManager.load w).2)
    by (rewrite <- Hl; by destruct (RollbackManager.load w)).
  cbv zeta. cbn [fst snd].
  rewrite (stable_blind_emit rollback_data blind_rollback_data).
  by rewrite (stable_blind_run_all os rollback_data blind_rollback_data).
Qed.

End Status.



Section Counting.

Variable os : OS.

Lemma count_log_app l1 l2 : count_log (l1 ++ l2) = count_log l1 + count_log l2.
Proof. induction l1 as [|e l1 IH]; simpl; [done|]. rewrite IH. lia. Qed.

Lemma logged_trans n m w1 w2 w3 :
  logged n w1 w2 → logged m w2 w3 → logged (m + n) w1 w3.
Proof.
  intros (e1 & E1 & C1) (e2 & E2 & C2). exists (e2 ++ e1). split.
  - by rewrite E2, E1, app_assoc.
  - rewrite count_log_app. lia.
Qed.

Lemma logged_silent w w' : extends (λ e, is_log e = false) w w' → logged 0 w w'.
Proof.
  intros (evs & E & F). exists evs. split; [done|].
  clear E. induction F as [|e l He Hl IH]; simpl; [done|]. by rewrite He, IH.
Qed.

Lemma run_all_silent steps : ∀ success,
  emits (λ e, is_log e = false) (run_all os steps success).
Proof.
  induction steps as [|s rest IH]; intros success; simpl.
  - apply emits_ret.
  - apply emits_bind; [|intros ?; apply IH].
    destruct s as [p|t p|p [o|]]; simpl;
      unfold RollbackManager._remove_junction,
        RollbackManager._move_back_from_target,
        RollbackManager._restore_junction; repeat step_emits; done.
Qed.

Lemma rollback_logs_once w r :
  rollback_data w = Some r → logged 1 w (RollbackManager.rollback os w).2.
Proof.
  intros Hd.
  assert (RollbackManager.load w = (Some r, w)) as Hl.
  { destruct w as [f rf rd t]. simpl in Hd. by subst rd. }
  rewrite (rollback_eq_run_all os w r w Hl). cbv zeta. cbn [fst snd].
  set (ra := run_all os (compensating_sequence r) true w).
  apply (logged_trans 0 1 w ra.2).
  - apply logged_silent. apply run_all_silent.
  - exists [outcome_line ra.1]. split; [done|]. by destruct ra.1.
Qed.

(** X4: a run of [execute_backup] performs exactly one rollback (one
    outcome line) when a valid request fails, and none when the request
    succeeds or is rejected by validation. *)
Theorem execute_backup_rolls_back_once source target w :
  logged
    (if (BackupManager.validate_paths os source target w).1.1
        && negb (BackupManager.execute_backup os source target w).1
     then 1 else 0)
    w (BackupManager.execute_backup os source target w).2.
Proof.
  rewrite execute_backup_stages. cbv zeta.
  assert (logged 0 w (BackupManager.validate_paths os source target w).2) as Hv.
  { apply logged_silent. by apply (validate_paths_emits os). }
  destruct (BackupManager.validate_paths os source target w).1.1; simpl; [|done].
  destruct (snapshot_world os source target w) as [_ Hd1].
  set (eff := BackupManager.actual_target_str (fs w) source target) in *.
  set (r := RollbackManager.snapshot os (fs w) source eff) in *.
  assert (logged 0 w (RollbackManager.create_rollback_point os source eff
             (BackupManager.validate_paths os source target w).2).2) as H1.
  { apply (logged_trans 0 0 _ _ _ Hv). apply logged_silent.
    rewrite create_rollback_point_eq. cbv zeta.
    destruct (json_dump_ok os); simpl.
    - eexists [_]. split; [done|]. by constructor.
    - by apply extends_refl. }
  set (w1 := (RollbackManager.create_rollback_point os source eff
                (BackupManager.validate_paths os source target w).2).2) in *.
  set (mv := BackupManager._move_folder os source target w1).
  assert (logged 0 w mv.2 ∧ rollback_data mv.2 = Some r) as [H2 Hd2].
  { split.
    - apply (logged_trans 0 0 _ _ _ H1). apply logged_silent.
      eapply extends_weaken; [|apply move_folder_events].
      by intros [| [] | | | | | |].
    - subst mv. by rewrite (stable_blind_move_folder os _ blind_rollback_data). }
  destruct (negb mv.1); simpl.
  { apply (logged_trans 0 1 _ _ _ H2). by eapply rollback_logs_once. }
  set (jn := BackupManager._create_junction os source eff mv.2).
  assert (logged 0 w jn.2 ∧ rollback_data jn.2 = Some r) as [H3 Hd3].
  { split.
    - apply (logged_trans 0 0 _ _ _ H2). apply logged_silent.
      eapply extends_weaken; [|apply (create_junction_emits os)].
      by intros [| [] | | | | | |].
    - subst jn. by rewrite (stable_blind_create_junction os _ blind_rollback_data). }
  destruct (negb jn.1); simpl.
  { apply (logged_trans 0 1 _ _ _ H3). by eapply rollback_logs_once. }
  set (vf := BackupManager._verify_backup os source eff jn.2).
  assert (logged 0 w vf.2 ∧ rollback_data vf.2 = Some r) as [H4 Hd4].
  { split.
    - apply (logged_trans 0 0 _ _ _ H3). apply logged_silent.
      eapply extends_weaken; [|apply (verify_backup_emits os)].
      by intros [].
    - subst vf. by rewrite (stable_blind_verify_backup os _ blind_rollback_data). }
  destruct (negb vf.1); simpl.
  { apply (logged_trans 0 1 _ _ _ H4). by eapply rollback_logs_once. }
  apply (logged_trans 0 0 _ _ _ H4). apply logged_silent.
  by apply clear_rollback_point_emits.
Qed.

End Counting.



Section Protocol.
Variable os : OS.

Ltac crunch :=
  repeat first
    [ rewrite bind_eq
    | progress cbn [fst snd negb]
    | match goal with
      | |- context [run_command os ?c ?f] =>
          let r := fresh "r" in
          destruct (run_command os c f) as [[[? ?] ?] ?] eqn:?
      | |- context [mkdir_parents os ?p ?f] =>
          destruct (mkdir_parents os p f) eqn:?
      | |- context [if ?b then _ else _] => destruct b eqn:?
      end
    | progress simpl ].

Ltac close_with pre cmds :=
  exists pre, cmds; split; [reflexivity|]; split; [by (left + right)|]; split;
    [unfold move_commands;
     repeat first [apply list_elem_of_here | apply list_elem_of_further]
    |first [by left | by right]].

(** X7: the commands of one move step are, in this order, at most one
    [mkdir] of the target's parent, then nothing, or Move-Item, or
    Move-Item and robocopy, or Move-Item, robocopy and Remove-Item, all on
    the same source and destination; the step never returns [True]
    without having run Move-Item. *)
Theorem move_folder_protocol source target w :
  let tp := BackupManager.final_target_path (fs w) source target in
  let d := BackupManager.final_target_str (fs w) source target in
  let mv := BackupManager._move_folder os source target w in
  ∃ pre cmds,
    trace mv.2 = cmds ++ pre ++ trace w
    ∧ (pre = [] ∨ pre = [EvMkdir (parent tp)])
    ∧ cmds ∈ move_commands source d
    ∧ (mv.1 = false ∨ cmds ≠ []).
Proof.
  cbv zeta. unfold BackupManager._move_folder.
  rewrite bind_eq. cbv beta.
  change (get_fs w).1 with (fs w). change (get_fs w).2 with w.
  set (tp := BackupManager.final_target_path (fs w) source target).
  set (d := BackupManager.final_target_str (fs w) source target).
  unfold ps_command, mkdir.
  crunch.
  all: first
    [ close_with (@nil event) (@nil event)
    | close_with [EvMkdir (parent tp)] (@nil event)
    | close_with (@nil event) [EvCommand (MoveItem source d)]
    | close_with [EvMkdir (parent tp)] [EvCommand (MoveItem source d)]
    | close_with (@nil event)
        [EvCommand (Robocopy source d); EvCommand (MoveItem source d)]
    | close_with [EvMkdir (parent tp)]
        [EvCommand (Robocopy source d); EvCommand (MoveItem source d)]
    | close_with (@nil event)
        [EvCommand (RemoveItem source); EvCommand (Robocopy source d);
         EvCommand (MoveItem source d)]
    | close_with [EvMkdir (parent tp)]
        [EvCommand (RemoveItem source); EvCommand (Robocopy source d);
         EvCommand (MoveItem source d)] ].
Qed.
(** X8: when the move step returns [True] and did not end with
    Remove-Item, it has seen, in the filesystem it leaves, that the final
    target exists and the source does not. *)
Theorem move_folder_success_checked source target w :
  let tp := BackupManager.final_target_path (fs w) source target in
  let mv := BackupManager._move_folder os source target w in
  mv.1 = true →
  head (trace mv.2) ≠ Some (EvCommand (RemoveItem source)) →
  exists_ (fs mv.2) tp = true ∧ exists_ (fs mv.2) (Path source) = false.
Proof.
  cbv zeta. unfold BackupManager._move_folder.
  rewrite bind_eq. cbv beta.
  change (get_fs w).1 with (fs w). change (get_fs w).2 with w.
  set (tp := BackupManager.final_target_path (fs w) source target).
  set (d := BackupManager.final_target_str (fs w) source target).
  unfold ps_command, mkdir.
  crunch.
  all: try (intros; discriminate).
  all: try (intros _ H; by destruct H).
  all: intros _ _; simpl in *;
    match goal with
    | |- exists_ ?g ?a = true ∧ exists_ ?g ?b = false =>
        destruct (exists_ g a) eqn:E1, (exists_ g b) eqn:E2;
        simpl in *; done
    end.
Qed.
End Protocol.



Section Safety.

Variable os : OS.

(** X15: [rollback] never runs rmdir when the recorded source is not a
    directory link, whatever the flags of the record say. *)
Theorem rollback_never_rmdirs_a_directory w r :
  (RollbackManager.load w).1 = Some r →
  RollbackManager._is_junction (fs w) (Path (rd_source r)) = false →
  extends (λ e, is_rmdir e = false) w (RollbackManager.rollback os w).2.
Proof.
  intros Hl Hj.
  assert (fs (RollbackManager.load w).2 = fs w
          ∧ trace (RollbackManager.load w).2 = trace w) as [Hf Ht].
  { revert Hl. destruct w as [f rf [rd|] t]; simpl; [done|].
    by destruct rf. }
  rewrite (rollback_eq_run_all os w r (RollbackManager.load w).2)
    by (rewrite <- Hl; by destruct (RollbackManager.load w)).
  cbv zeta. cbn [fst snd].
  set (w0 := (RollbackManager.load w).2) in *.
  unfold compensating_sequence. rewrite run_all_app, run_all_optional.
  cbn [fst snd].
  assert ((if junction_created r
           then run_step os (RemoveJunction (Path (rd_source r)))
           else mret true) w0 = (true, w0)) as ->.
  { destruct (junction_created r); [|done]. simpl.
    unfold RollbackManager._remove_junction. rewrite bind_eq. simpl.
    by rewrite Hf, Hj, andb_false_r. }
  cbn [fst snd].
  apply extends_trans with (w2 := w0); [by apply extends_refl|].
  match goal with
  | |- extends _ _ (emit (outcome_line ?b) ?wr).2 =>
      apply extends_trans with (w2 := wr);
        [|apply (emits_emit (λ e, is_rmdir e = false)); by destruct b]
  end.
  rewrite run_all_app, !run_all_optional. cbn [fst snd].
  match goal with
  | |- extends _ _ (?m2 (?m1 w0).2).2 =>
      apply extends_trans with (w2 := (m1 w0).2); apply emits_at
  end.
  - destruct (backup_created r); simpl;
      unfold RollbackManager._move_back_from_target; repeat step_emits; done.
  - destruct (source_is_junction r); simpl;
      try destruct (original_junction_target r);
      unfold RollbackManager._restore_junction; repeat step_emits; done.
Qed.

End Safety.

Section Junctions.

Variable os : OS.
Variable jos : JunctionOS.

Lemma os_path_exists_dangling f p lt t :
  f !! Path p = Some (NLink lt t) → f !! t = None →
  JunctionManager.os_path_exists f p = false.
Proof.
  intros Hp Ht. unfold JunctionManager.os_path_exists.
  case_bool_decide; [done|]. unfold exists_, follow. by rewrite Hp, Ht.
Qed.

(** X19: [remove_junction] refuses a path that does not exist or is not
    reported as a junction: it returns [False] and leaves the filesystem
    as it is. *)
Theorem remove_junction_refuses p w :
  JunctionManager.os_path_exists (fs w) p = false
  ∨ (PathUtils.is_junction os p w).1 = false →
  (JunctionManager.remove_junction os jos p w).1.1 = false
  ∧ fs (JunctionManager.remove_junction os jos p w).2 = fs w.
Proof.
  rewrite is_junction_result.
  intros H. unfold JunctionManager.remove_junction. rewrite bind_eq. cbv beta.
  change (get_fs w).1 with (fs w). change (get_fs w).2 with w.
  destruct (JunctionManager.os_path_exists (fs w) p); simpl; [|done].
  destruct H as [H|H]; [done|].
  rewrite bind_eq.
  pose proof (is_junction_result os p w) as Hj.
  pose proof (is_junction_stable os fs p (λ _ _ _ _ _, eq_refl) w) as Hf.
  destruct (PathUtils.is_junction os p w) as [j wj]. simpl in Hj, Hf |- *.
  rewrite Hj, H. simpl. done.
Qed.

(** X20: a positive [verify_junction] has checked that the path exists,
    is reported as a junction, and that PowerShell names a target that is
    not blank and exists. *)
Theorem verify_junction_true p w :
  (JunctionManager.verify_junction os jos p w).1.1 = true →
  JunctionManager.os_path_exists (fs w) p = true
  ∧ (PathUtils.is_junction os p w).1 = true
  ∧ ∃ output,
      get_item_target jos p (fs w) = (true, output)
      ∧ strip output ≠ EmptyString
      ∧ JunctionManager.os_path_exists (fs w) (strip output) = true.
Proof.
  unfold JunctionManager.verify_junction. rewrite bind_eq. cbv beta.
  change (get_fs w).1 with (fs w). change (get_fs w).2 with w.
  destruct (JunctionManager.os_path_exists (fs w) p) eqn:He; simpl; [|done].
  rewrite bind_eq.
  pose proof (is_junction_result os p w) as Hj.
  pose proof (is_junction_stable os fs p (λ _ _ _ _ _, eq_refl) w) as Hf.
  destruct (PathUtils.is_junction os p w) as [[] wj]; simpl in Hj, Hf |- *;
    [|done].
  rewrite bind_eq. unfold JunctionManager.get_junction_info. rewrite bind_eq.
  pose proof (is_junction_stable os fs p (λ _ _ _ _ _, eq_refl) wj) as Hf2.
  destruct (PathUtils.is_junction os p wj) as [[] wk]; simpl in Hf2 |- *;
    [|done].
  rewrite bind_eq. cbv beta.
  change (get_fs wk).1 with (fs wk). change (get_fs wk).2 with wk.
  rewrite Hf2, Hf, He.
  destruct (get_item_target jos p (fs w)) as [success output] eqn:Eg.
  destruct success; simpl; [|done].
  case_bool_decide as Ho; simpl; [done|].
  destruct (getctime jos p); simpl; [|done].
  case_bool_decide as Hs; [done|].
  rewrite bind_eq. cbv beta.
  change (get_fs wk).1 with (fs wk). rewrite Hf2, Hf.
  destruct (JunctionManager.os_path_exists (fs w) (strip output)) eqn:Et;
    simpl; [|done].
  intros _. split; [done|]. split; [done|]. by exists output.
Qed.

(** X21: a junction whose target is gone can be neither removed nor
    verified: both methods answer "Junction path does not exist" and do
    nothing, because the existence test follows the link. *)
Theorem dangling_junction_is_out_of_reach p w lt t :
  fs w !! Path p = Some (NLink lt t) →
  fs w !! t = None →
  JunctionManager.remove_junction os jos p w
    = ((false, "Junction path does not exist"), w)
  ∧ JunctionManager.verify_junction os jos p w
    = ((false, "Junction path does not exist"), w).
Proof.
  intros Hp Ht.
  pose proof (os_path_exists_dangling _ _ _ _ Hp Ht) as He.
  unfold JunctionManager.remove_junction, JunctionManager.verify_junction.
  rewrite !bind_eq. cbv beta.
  change (get_fs w).1 with (fs w). change (get_fs w).2 with w.
  by rewrite He.
Qed.

End Junctions.

Section MoreSteps.

Variable os : OS.

(** X22: the link step returns [True] only when New-Item reported success
    and the path utilities, asked again afterwards, report the source as
    a junction. *)
Theorem create_junction_true source target w :
  (BackupManager._create_junction os source target w).1 = true →
  (run_command os (NewItemJunction source target) (fs w)).1.1.1 = true
  ∧ (PathUtils.is_junction os source
       (BackupManager._create_junction os source target w).2).1 = true.
Proof.
  unfold BackupManager._create_junction. rewrite bind_eq.
  unfold ps_command at 1 2 3. rewrite !bind_eq. simpl.
  destruct (run_command os (NewItemJunction source target) (fs w))
    as [[[success stdout] stderr] f'] eqn:Ec. simpl.
  destruct success; simpl; [|done].
  rewrite bind_eq.
  set (wc := World f' (rollback_file w) (rollback_data w)
               (EvCommand (NewItemJunction source target) :: trace w)).
  pose proof (is_junction_result os source wc) as Hj.
  pose proof (is_junction_stable os fs source (λ _ _ _ _ _, eq_refl) wc) as Hf.
  destruct (PathUtils.is_junction os source wc) as [[] wj]; simpl in Hj, Hf |- *;
    [|done].
  intros _. split; [done|]. by rewrite is_junction_result, Hf, <- Hj.
Qed.

(** X23: when the record says the content was moved but the recorded
    target no longer exists, [rollback] restores nothing, leaves the
    filesystem as it is and still reports success. *)
Theorem rollback_missing_target_reports_success w r :
  (RollbackManager.load w).1 = Some r →
  junction_created r = false →
  backup_created r = true →
  source_is_junction r = false →
  exists_ (fs w) (Path (rd_target r)) = false →
  (RollbackManager.rollback os w).1 = true
  ∧ fs (RollbackManager.rollback os w).2 = fs w.
Proof.
  intros Hl Hj Hb Hs He.
  assert (fs (RollbackManager.load w).2 = fs w) as Hf.
  { revert Hl. destruct w as [f rf [rd|] t]; simpl; [done|]. by destruct rf. }
  rewrite (rollback_eq_run_all os w r (RollbackManager.load w).2)
    by (rewrite <- Hl; by destruct (RollbackManager.load w)).
  cbv zeta. cbn [fst snd]. unfold compensating_sequence.
  rewrite Hj, Hb, Hs. simpl. rewrite bind_eq.
  unfold RollbackManager._move_back_from_target. rewrite bind_eq. simpl.
  by rewrite Hf, He.
Qed.

End MoreSteps.

(** ** The properties at concrete inputs *)

Lemma execute_backup_success_postcondition_witness :
  (BackupManager.execute_backup ideal_os "/work/proj" "/cloud/backup"
     (start fs_cloud)).1 = true ∧
  (PathUtils.is_junction ideal_os "/work/proj"
     (BackupManager.execute_backup ideal_os "/work/proj" "/cloud/backup"
        (start fs_cloud)).2).1 = true.
Proof.
  assert ((BackupManager.execute_backup ideal_os "/work/proj" "/cloud/backup"
             (start fs_cloud)).1 = true) as H by (vm_compute; reflexivity).
  split; [exact H|].
  exact (proj1 (execute_backup_success_postcondition ideal_os "/work/proj"
                  "/cloud/backup" (start fs_cloud) H)).
Defined.

Lemma execute_backup_success_clears_record_witness :
  (BackupManager.execute_backup ideal_os "/work/proj" "/cloud/backup"
     (start fs_cloud)).1 = true ∧
  rollback_data (BackupManager.execute_backup ideal_os "/work/proj"
                   "/cloud/backup" (start fs_cloud)).2 = None.
Proof.
  assert ((BackupManager.execute_backup ideal_os "/work/proj" "/cloud/backup"
             (start fs_cloud)).1 = true) as H by (vm_compute; reflexivity).
  split; [exact H|].
  exact (proj1 (execute_backup_success_clears_record ideal_os "/work/proj"
                  "/cloud/backup" (start fs_cloud) H)).
Defined.

Lemma execute_backup_failure_keeps_record_witness :
  (BackupManager.validate_paths move_denied_os "/tmp/proj" "/tmp/onedrive/backup"
     (start fs_tmp)).1.1 = true ∧
  (BackupManager.execute_backup move_denied_os "/tmp/proj" "/tmp/onedrive/backup"
     (start fs_tmp)).1 = false ∧
  rollback_data (BackupManager.execute_backup move_denied_os "/tmp/proj"
                   "/tmp/onedrive/backup" (start fs_tmp)).2
  = Some (RollbackManager.snapshot move_denied_os fs_tmp "/tmp/proj"
            (BackupManager.actual_target_str fs_tmp "/tmp/proj"
               "/tmp/onedrive/backup")).
Proof.
  assert ((BackupManager.validate_paths move_denied_os "/tmp/proj"
             "/tmp/onedrive/backup" (start fs_tmp)).1.1 = true) as Hv
    by (vm_compute; reflexivity).
  assert ((BackupManager.execute_backup move_denied_os "/tmp/proj"
             "/tmp/onedrive/backup" (start fs_tmp)).1 = false) as Hf
    by (vm_compute; reflexivity).
  split; [exact Hv|]. split; [exact Hf|].
  exact (proj1 (execute_backup_failure_keeps_record move_denied_os "/tmp/proj"
                  "/tmp/onedrive/backup" (start fs_tmp) Hv Hf)).
Defined.

Lemma execute_backup_blank_path_witness :
  all_space "   " = true ∧
  BackupManager.execute_backup ideal_os "   " "/tmp/onedrive/backup" (start fs_tmp)
  = (false, start fs_tmp).
Proof.
  split; [reflexivity|].
  apply (execute_backup_blank_path ideal_os "   " "/tmp/onedrive/backup"
           (start fs_tmp)).
  left. reflexivity.
Defined.

Lemma validate_paths_accepts_witness :
  (BackupManager.validate_paths ideal_os "/tmp/proj" "/tmp/onedrive/backup"
     (start fs_tmp)).1.1 = true ∧
  is_dir fs_tmp (Path "/tmp/proj") = true.
Proof.
  assert ((BackupManager.validate_paths ideal_os "/tmp/proj"
             "/tmp/onedrive/backup" (start fs_tmp)).1.1 = true) as Hv
    by (vm_compute; reflexivity).
  split; [exact Hv|].
  exact (proj1 (proj2 (proj2 (validate_paths_accepts ideal_os "/tmp/proj"
                         "/tmp/onedrive/backup" (start fs_tmp) Hv)))).
Defined.

Lemma move_folder_success_checked_witness :
  (BackupManager._move_folder ideal_os "/tmp/proj" "/tmp/onedrive/backup"
     (start fs_tmp)).1 = true ∧
  exists_
    (fs (BackupManager._move_folder ideal_os "/tmp/proj" "/tmp/onedrive/backup"
           (start fs_tmp)).2)
    (Path "/tmp/proj") = false.
Proof.
  assert ((BackupManager._move_folder ideal_os "/tmp/proj" "/tmp/onedrive/backup"
             (start fs_tmp)).1 = true) as H by (vm_compute; reflexivity).
  assert (head (trace (BackupManager._move_folder ideal_os "/tmp/proj"
                         "/tmp/onedrive/backup" (start fs_tmp)).2)
          ≠ Some (EvCommand (RemoveItem "/tmp/proj"))) as Hh
    by (vm_compute; discriminate).
  split; [exact H|].
  exact (proj2 (move_folder_success_checked ideal_os "/tmp/proj"
                  "/tmp/onedrive/backup" (start fs_tmp) H Hh)).
Defined.

Lemma is_junction_of_missing_path_witness :
  exists_ fs_dangling (Path "/tmp/proj") = false ∧
  PathUtils.is_junction ideal_os "/tmp/proj" (start fs_dangling)
  = (false, start fs_dangling).
Proof.
  assert (exists_ (fs (start fs_dangling)) (Path "/tmp/proj") = false) as H
    by (vm_compute; reflexivity).
  split; [exact H|].
  exact (proj1 (is_junction_of_missing_path ideal_os "/tmp/proj"
                  (start fs_dangling) H)).
Defined.

Lemma get_junction_target_is_not_blank_witness :
  (PathUtils.get_junction_target ideal_os "/tmp/proj" (start fs_relocated)).1
  = Some "/tmp/onedrive/backup" ∧
  all_space "/tmp/onedrive/backup" = false.
Proof.
  assert ((PathUtils.get_junction_target ideal_os "/tmp/proj"
             (start fs_relocated)).1 = Some "/tmp/onedrive/backup") as H
    by (vm_compute; reflexivity).
  split; [exact H|].
  exact (get_junction_target_is_not_blank ideal_os "/tmp/proj"
           (start fs_relocated) "/tmp/onedrive/backup" H).
Defined.

Lemma update_rollback_status_round_trip_witness :
  rollback_data (World fs_moved None (Some record_relocated) []) = Some record_relocated ∧
  json_dump_ok ideal_os = true ∧
  (RollbackManager.load
     (crash (RollbackManager.update_rollback_status ideal_os true false
               (World fs_moved None (Some record_relocated) [])).2)).1
  = Some (set_status true false record_relocated).
Proof.
  split; [reflexivity|]. split; [reflexivity|].
  exact (proj1 (update_rollback_status_round_trip ideal_os true false
                  (World fs_moved None (Some record_relocated) [])
                  record_relocated eq_refl eq_refl)).
Defined.

Lemma update_rollback_status_without_record_witness :
  rollback_data (World fs_moved (Some record_relocated) None []) = None ∧
  RollbackManager.update_rollback_status ideal_os true false
    (World fs_moved (Some record_relocated) None [])
  = (tt, World fs_moved (Some record_relocated) None []).
Proof.
  split; [reflexivity|].
  exact (update_rollback_status_without_record ideal_os true false
           (World fs_moved (Some record_relocated) None []) eq_refl).
Defined.

Lemma update_rollback_status_last_wins_witness :
  rollback_data (World fs_moved None (Some record_relocated) []) = Some record_relocated ∧
  json_dump_ok ideal_os = true ∧
  rollback_file
    (RollbackManager.update_rollback_status ideal_os false true
       (RollbackManager.update_rollback_status ideal_os true false
          (World fs_moved None (Some record_relocated) [])).2).2
  = Some (set_status false true record_relocated).
Proof.
  split; [reflexivity|]. split; [reflexivity|].
  exact (proj2 (update_rollback_status_last_wins ideal_os true false false true
                  (World fs_moved None (Some record_relocated) [])
                  record_relocated eq_refl eq_refl)).
Defined.

Lemma rollback_keeps_the_record_witness :
  (RollbackManager.load (World fs_relocated (Some record_relocated) None [])).1
  = Some record_relocated ∧
  rollback_file
    (RollbackManager.rollback ideal_os
       (World fs_relocated (Some record_relocated) None [])).2
  = Some record_relocated.
Proof.
  split; [reflexivity|].
  exact (proj2 (rollback_keeps_the_record ideal_os
                  (World fs_relocated (Some record_relocated) None [])
                  record_relocated eq_refl)).
Defined.

Lemma rollback_never_rmdirs_a_directory_witness :
  (RollbackManager.load (World fs_tmp None (Some record_relocated) [])).1
  = Some record_relocated ∧
  RollbackManager._is_junction fs_tmp (Path (rd_source record_relocated)) = false ∧
  extends (λ e, is_rmdir e = false)
    (World fs_tmp None (Some record_relocated) [])
    (RollbackManager.rollback ideal_os
       (World fs_tmp None (Some record_relocated) [])).2.
Proof.
  assert (RollbackManager._is_junction
            (fs (World fs_tmp None (Some record_relocated) []))
            (Path (rd_source record_relocated)) = false) as Hj
    by (vm_compute; reflexivity).
  split; [reflexivity|]. split; [exact Hj|].
  exact (rollback_never_rmdirs_a_directory ideal_os
           (World fs_tmp None (Some record_relocated) [])
           record_relocated eq_refl Hj).
Defined.

Lemma remove_junction_refuses_witness :
  (PathUtils.is_junction ideal_os "/tmp/proj" (start fs_tmp)).1 = false ∧
  (JunctionManager.remove_junction ideal_os ideal_junction_os "/tmp/proj"
     (start fs_tmp)).1.1 = false ∧
  fs (JunctionManager.remove_junction ideal_os ideal_junction_os "/tmp/proj"
        (start fs_tmp)).2 = fs_tmp.
Proof.
  assert ((PathUtils.is_junction ideal_os "/tmp/proj" (start fs_tmp)).1 = false)
    as H by (vm_compute; reflexivity).
  split; [exact H|].
  exact (remove_junction_refuses ideal_os ideal_junction_os "/tmp/proj"
           (start fs_tmp) (or_intror H)).
Defined.

Lemma verify_junction_true_witness :
  (JunctionManager.verify_junction ideal_os ideal_junction_os "/tmp/proj"
     (start fs_relocated)).1.1 = true ∧
  JunctionManager.os_path_exists fs_relocated "/tmp/proj" = true.
Proof.
  assert ((JunctionManager.verify_junction ideal_os ideal_junction_os "/tmp/proj"
             (start fs_relocated)).1.1 = true) as H by (vm_compute; reflexivity).
  split; [exact H|].
  exact (proj1 (verify_junction_true ideal_os ideal_junction_os "/tmp/proj"
                  (start fs_relocated) H)).
Defined.

Lemma dangling_junction_is_out_of_reach_witness :
  fs_dangling !! Path "/tmp/proj" = Some (NLink Junction ["tmp"; "gone"]) ∧
  fs_dangling !! ["tmp"; "gone"] = None ∧
  JunctionManager.remove_junction ideal_os ideal_junction_os "/tmp/proj"
    (start fs_dangling)
  = ((false, "Junction path does not exist"), start fs_dangling).
Proof.
  assert (fs (start fs_dangling) !! Path "/tmp/proj"
          = Some (NLink Junction ["tmp"; "gone"])) as Hp
    by (vm_compute; reflexivity).
  assert (fs (start fs_dangling) !! ["tmp"; "gone"] = None) as Ht
    by (vm_compute; reflexivity).
  split; [exact Hp|]. split; [exact Ht|].
  exact (proj1 (dangling_junction_is_out_of_reach ideal_os ideal_junction_os
                  "/tmp/proj" (start fs_dangling) Junction ["tmp"; "gone"] Hp Ht)).
Defined.

Lemma create_junction_true_witness :
  (BackupManager._create_junction ideal_os "/tmp/proj" "/tmp/onedrive/backup"
     (start fs_moved)).1 = true ∧
  (run_command ideal_os (NewItemJunction "/tmp/proj" "/tmp/onedrive/backup")
     fs_moved).1.1.1 = true.
Proof.
  assert ((BackupManager._create_junction ideal_os "/tmp/proj"
             "/tmp/onedrive/backup" (start fs_moved)).1 = true) as H
    by (vm_compute; reflexivity).
  split; [exact H|].
  exact (proj1 (create_junction_true ideal_os "/tmp/proj" "/tmp/onedrive/backup"
                  (start fs_moved) H)).
Defined.

Lemma rollback_missing_target_reports_success_witness :
  let w := World fs_tmp None (Some (set_status true false record_relocated)) [] in
  (RollbackManager.load w).1 = Some (set_status true false record_relocated) ∧
  exists_ fs_tmp (Path "/tmp/onedrive/backup") = false ∧
  (RollbackManager.rollback ideal_os w).1 = true ∧
  fs (RollbackManager.rollback ideal_os w).2 = fs_tmp.
Proof.
  cbv zeta.
  assert (exists_ (fs (World fs_tmp None
                         (Some (set_status true false record_relocated)) []))
            (Path (rd_target (set_status true false record_relocated))) = false)
    as He by (vm_compute; reflexivity).
  split; [reflexivity|]. split; [exact He|].
  exact (rollback_missing_target_reports_success ideal_os
           (World fs_tmp None (Some (set_status true false record_relocated)) [])
           (set_status true false record_relocated)
           eq_refl eq_refl eq_refl eq_refl He).
Defined.

Section AfterSuccess.

Variable os : OS.

(** X24: once a run has succeeded and [rollback.json] has been removed,
    a later [rollback] finds no record: it returns [False] and leaves the
    filesystem as the run left it, so a completed relocation cannot be
    undone by it. *)
Theorem rollback_after_success_does_nothing source target w :
  (BackupManager.execute_backup os source target w).1 = true →
  unlink_ok os = true →
  (RollbackManager.rollback os
     (BackupManager.execute_backup os source target w).2).1 = false
  ∧ fs (RollbackManager.rollback os
          (BackupManager.execute_backup os source target w).2).2
    = fs (BackupManager.execute_backup os source target w).2.
Proof.
  intros Hs Hu.
  destruct (execute_backup_success_clears os source target w Hs) as [Hd Hf].
  specialize (Hf Hu).
  destruct (BackupManager.execute_backup os source target w).2
    as [f rf rd t]. simpl in Hd, Hf. subst rf rd. done.
Qed.

(** X25: a relocation cannot be repeated: in the world a successful run
    leaves, validation rejects the same source whatever the target. *)
Theorem validation_after_success_rejects source target target' w :
  (BackupManager.execute_backup os source target w).1 = true →
  (BackupManager.validate_paths os source target'
     (BackupManager.execute_backup os source target w).2).1.1 = false.
Proof.
  intros Hs.
  destruct (BackupManager.validate_paths os source target'
              (BackupManager.execute_backup os source target w).2).1.1 eqn:E;
    [|done].
  apply validate_paths_accepted_facts in E as (_&_&_&_&_&Hj&_).
  destruct (execute_backup_success_facts os source target w Hs) as [Hj' _].
  congruence.
Qed.

End AfterSuccess.

Lemma rollback_after_success_does_nothing_witness :
  (BackupManager.execute_backup ideal_os "/work/proj" "/cloud/backup"
     (start fs_cloud)).1 = true ∧
  unlink_ok ideal_os = true ∧
  (RollbackManager.rollback ideal_os
     (BackupManager.execute_backup ideal_os "/work/proj" "/cloud/backup"
        (start fs_cloud)).2).1 = false.
Proof.
  assert ((BackupManager.execute_backup ideal_os "/work/proj" "/cloud/backup"
             (start fs_cloud)).1 = true) as H by (vm_compute; reflexivity).
  split; [exact H|]. split; [reflexivity|].
  exact (proj1 (rollback_after_success_does_nothing ideal_os "/work/proj"
                  "/cloud/backup" (start fs_cloud) H eq_refl)).
Defined.

Lemma validation_after_success_rejects_witness :
  (BackupManager.execute_backup ideal_os "/work/proj" "/cloud/backup"
     (start fs_cloud)).1 = true ∧
  (BackupManager.validate_paths ideal_os "/work/proj" "/cloud/elsewhere"
     (BackupManager.execute_backup ideal_os "/work/proj" "/cloud/backup"
        (start fs_cloud)).2).1.1 = false.
Proof.
  assert ((BackupManager.execute_backup ideal_os "/work/proj" "/cloud/backup"
             (start fs_cloud)).1 = true) as H by (vm_compute; reflexivity).
  split; [exact H|].
  exact (validation_after_success_rejects ideal_os "/work/proj" "/cloud/backup"
           "/cloud/elsewhere" (start fs_cloud) H).
Defined.

(** * The effective target of a run *)

Lemma extends_elem P w w' e : extends P w w' → e ∈ trace w → e ∈ trace w'.
Proof. intros (evs & E & _) H. rewrite E. apply elem_of_app. by right. Qed.

Section Destination.

Variable os : OS.

(** The move step returns [True] only after Move-Item. *)
Lemma move_folder_true_moved source target w :
  (BackupManager._move_folder os source target w).1 = true →
  EvCommand (MoveItem source (BackupManager.final_target_str (fs w) source target))
  ∈ trace (BackupManager._move_folder os source target w).2.
Proof.
  unfold BackupManager._move_folder. rewrite bind_eq. cbv beta.
  change (get_fs w).1 with (fs w). change (get_fs w).2 with w.
  set (tp := BackupManager.final_target_path (fs w) source target).
  set (d := BackupManager.final_target_str (fs w) source target).
  unfold ps_command, mkdir.
  repeat first
    [ rewrite bind_eq
    | progress cbn [fst snd negb]
    | match goal with
      | |- context [run_command os ?c ?f] =>
          destruct (run_command os c f) as [[[? ?] ?] ?] eqn:?
      | |- context [mkdir_parents os ?p ?f] =>
          destruct (mkdir_parents os p f) eqn:?
      | |- context [if ?b then _ else _] => destruct b eqn:?
      end
    | progress simpl ].
  all: try (intros; discriminate).
  all: intros _;
    repeat first [apply list_elem_of_here | apply list_elem_of_further].
Qed.

(** The link step starts with New-Item. *)
Lemma create_junction_issued source target w :
  EvCommand (NewItemJunction source target)
  ∈ trace (BackupManager._create_junction os source target w).2.
Proof.
  unfold BackupManager._create_junction. rewrite bind_eq.
  assert (EvCommand (NewItemJunction source target)
          ∈ trace (ps_command os (NewItemJunction source target) w).2) as H.
  { unfold ps_command. rewrite !bind_eq. simpl. apply list_elem_of_here. }
  destruct (ps_command os (NewItemJunction source target) w) as [[[[] so] se] wc];
    simpl in *; [|done].
  eapply extends_elem; [|exact H].
  apply (emits_at (λ _, True)).
  repeat first [apply is_junction_emits; done | step_emits]; done.
Qed.

(** The trace only grows from stage to stage: what the snapshot left is
    there after the move step, what the move step left is there at the end
    of the run, and so is what the link step left, if the run got there. *)
Lemma execute_backup_keeps_events source target w :
  let eff := BackupManager.actual_target_str (fs w) source target in
  let w1 := (RollbackManager.create_rollback_point os source eff
               (BackupManager.validate_paths os source target w).2).2 in
  let mv := BackupManager._move_folder os source target w1 in
  let jn := BackupManager._create_junction os source eff mv.2 in
  let run := BackupManager.execute_backup os source target w in
  (BackupManager.validate_paths os source target w).1.1 = true →
  extends (λ _, True) w1 mv.2
  ∧ extends (λ _, True) mv.2 run.2
  ∧ (mv.1 = true → extends (λ _, True) jn.2 run.2).
Proof.
  cbv zeta. intros Hv.
  set (eff := BackupManager.actual_target_str (fs w) source target).
  set (w1 := (RollbackManager.create_rollback_point os source eff
                (BackupManager.validate_paths os source target w).2).2).
  set (mv := BackupManager._move_folder os source target w1).
  set (jn := BackupManager._create_junction os source eff mv.2).
  set (vf := BackupManager._verify_backup os source eff jn.2).
  assert (∀ w0, extends (λ _, True) w0 (RollbackManager.rollback os w0).2) as Hr.
  { intros w0. apply emits_at. by apply rollback_emits. }
  assert (extends (λ _, True) w1 mv.2) as H1.
  { eapply extends_weaken; [|apply move_folder_events]. done. }
  assert (extends (λ _, True) mv.2 jn.2) as H2.
  { eapply extends_weaken; [|apply (create_junction_emits os)]. done. }
  assert (extends (λ _, True) jn.2 vf.2) as H3.
  { eapply extends_weaken; [|apply (verify_backup_emits os)]. done. }
  assert (extends (λ _, True) vf.2 (RollbackManager.clear_rollback_point os vf.2).2)
    as H4 by (by apply (clear_rollback_point_emits os)).
  split; [done|].
  rewrite execute_backup_stages. cbv zeta. rewrite Hv. cbn [negb].
  fold eff. fold w1. fold mv. fold jn. fold vf.
  destruct mv.1; cbn [negb snd]; [|split; [apply Hr|done]].
  destruct jn.1; cbn [negb snd].
  2: { split; [|intros _; apply Hr].
       eapply extends_trans; [exact H2|apply Hr]. }
  destruct vf.1; cbn [negb snd].
  2: { split; [|intros _].
       - eapply extends_trans; [exact H2|].
         eapply extends_trans; [exact H3|apply Hr].
       - eapply extends_trans; [exact H3|apply Hr]. }
  split; [|intros _].
  - eapply extends_trans; [exact H2|].
    eapply extends_trans; [exact H3|exact H4].
  - eapply extends_trans; [exact H3|exact H4].
Qed.

End Destination.

(** C5, as stated, fails: the target is a junction whose own target is
    gone, so it does not exist and is its own effective target; the request
    is valid, Move-Item is given the effective target as destination, and
    the target field of the record written for the run holds another
    path, the one the junction resolves to. *)
Lemma c5_counterexample :
  let w := start fs_stale_link in
  let run := BackupManager.execute_backup ideal_os "/tmp/proj" "/cloud/backup" w in
  (BackupManager.validate_paths ideal_os "/tmp/proj" "/cloud/backup" w).1.1 = true
  ∧ BackupManager.actual_target_str fs_stale_link "/tmp/proj" "/cloud/backup"
    = "/cloud/backup"
  ∧ EvCommand (MoveItem "/tmp/proj" "/cloud/backup") ∈ trace run.2
  ∧ rd_target <$> rollback_file run.2 = Some "/gone"
  ∧ rd_target <$> rollback_data run.2 = Some "/gone".
Proof.
  cbv zeta. split; [by vm_compute|]. split; [by vm_compute|].
  split; [|by vm_compute].
  assert (trace (BackupManager.execute_backup ideal_os "/tmp/proj" "/cloud/backup"
                   (start fs_stale_link)).2 !! 2
          = Some (EvCommand (MoveItem "/tmp/proj" "/cloud/backup"))) as H
    by (by vm_compute).
  by eapply list_elem_of_lookup_2.
Qed.

(** C5, amended: the effective target is [targetPath/basename(sourcePath)]
    when [targetPath] exists and is a directory and [targetPath] itself
    otherwise.  For a valid request, the move step, which works the value
    out again from [targetPath] in the world the snapshot left, arrives at
    the same string; every Move-Item, robocopy and New-Item command of
    the run has it as destination; the record made before the move, in
    memory and in [rollback.json], holds as target not this string but the
    path it resolves to; and a run that succeeds has issued Move-Item and
    New-Item with it and has verified that it exists and that the junction
    resolves to the same path. *)
Theorem c5_effective_target_of_a_run os source target w :
  let eff := if exists_ (fs w) (Path target) && is_dir (fs w) (Path target)
             then str (join (Path target) (name (Path source)))
             else target in
  let w1 := (RollbackManager.create_rollback_point os source eff
               (BackupManager.validate_paths os source target w).2).2 in
  let run := BackupManager.execute_backup os source target w in
  (BackupManager.validate_paths os source target w).1.1 = true →
  BackupManager.final_target_str (fs w1) source target = eff
  ∧ extends (uses_target source eff (str (resolve (fs w) (Path eff)))) w run.2
  ∧ (∃ r, rollback_data w1 = Some r
          ∧ rd_target r = str (resolve (fs w) (Path eff))
          ∧ (json_dump_ok os = true →
             rollback_file w1 = Some r ∧ EvJsonDump r ∈ trace run.2))
  ∧ (run.1 = true →
     EvCommand (MoveItem source eff) ∈ trace run.2
     ∧ EvCommand (NewItemJunction source eff) ∈ trace run.2
     ∧ exists_ (fs run.2) (Path eff) = true
     ∧ ∃ junction_target,
         (PathUtils.get_junction_target os source run.2).1 = Some junction_target
         ∧ resolve (fs run.2) (Path junction_target)
           = resolve (fs run.2) (Path eff)).
Proof.
  cbv zeta. intros Hv.
  change (if exists_ (fs w) (Path target) && is_dir (fs w) (Path target)
          then str (join (Path target) (name (Path source)))
          else target)
    with (BackupManager.actual_target_str (fs w) source target).
  set (eff := BackupManager.actual_target_str (fs w) source target).
  destruct (snapshot_world os source target w) as [Hf1 Hd1].
  destruct (execute_backup_keeps_events os source target w Hv) as (K1 & K2 & K3).
  fold eff in Hf1, Hd1, K1, K2, K3.
  set (w1 := (RollbackManager.create_rollback_point os source eff
                (BackupManager.validate_paths os source target w).2).2) in *.
  split; [by rewrite Hf1, final_is_actual|].
  split.
  { eapply extends_weaken; [|apply execute_backup_events].
    intros [| [] | | | | | |] H; try done. simpl in H. by subst. }
  split.
  { exists (RollbackManager.snapshot os (fs w) source eff).
    split; [done|]. split; [done|]. intros Hj.
    assert (rollback_file w1 = Some (RollbackManager.snapshot os (fs w) source eff)
            ∧ EvJsonDump (RollbackManager.snapshot os (fs w) source eff) ∈ trace w1)
      as [Hrf Hin].
    { subst w1. rewrite create_rollback_point_eq. cbv zeta. rewrite Hj. simpl.
      rewrite (validate_paths_stable os fs source target (λ _ _ _ _ _, eq_refl) w).
      split; [done|apply list_elem_of_here]. }
    split; [done|].
    eapply extends_elem; [exact K2|]. eapply extends_elem; [exact K1|done]. }
  intros Hs.
  destruct (execute_backup_success_facts os source target w Hs) as (_ & He & Hjt).
  assert ((BackupManager._move_folder os source target w1).1 = true) as Hmv.
  { revert Hs. rewrite execute_backup_stages. cbv zeta. rewrite Hv. cbn [negb].
    fold eff. fold w1. by destruct (BackupManager._move_folder os source target w1).1. }
  split.
  { eapply extends_elem; [exact K2|].
    pose proof (move_folder_true_moved os source target w1 Hmv) as Hm.
    by rewrite Hf1, final_is_actual in Hm. }
  split.
  { eapply extends_elem; [exact (K3 Hmv)|]. apply create_junction_issued. }
  done.
Qed.

Lemma c5_effective_target_of_a_run_witness :
  let w := start fs_cloud in
  let run := BackupManager.execute_backup ideal_os "/work/proj" "/cloud/backup" w in
  (BackupManager.validate_paths ideal_os "/work/proj" "/cloud/backup" w).1.1 = true
  ∧ run.1 = true
  ∧ EvCommand (MoveItem "/work/proj" "/cloud/backup/proj") ∈ trace run.2
  ∧ EvCommand (NewItemJunction "/work/proj" "/cloud/backup/proj") ∈ trace run.2
  ∧ exists_ (fs run.2) (Path "/cloud/backup/proj") = true.
Proof.
  cbv zeta.
  assert ((BackupManager.validate_paths ideal_os "/work/proj" "/cloud/backup"
             (start fs_cloud)).1.1 = true) as Hv by (vm_compute; reflexivity).
  assert ((BackupManager.execute_backup ideal_os "/work/proj" "/cloud/backup"
             (start fs_cloud)).1 = true) as Hs by (vm_compute; reflexivity).
  split; [exact Hv|]. split; [exact Hs|].
  destruct (c5_effective_target_of_a_run ideal_os "/work/proj" "/cloud/backup"
              (start fs_cloud) Hv) as (_ & _ & _ & H).
  destruct (H Hs) as (Hm & Hj & He & _).
  split; [exact Hm|]. split; [exact Hj|exact He].
Defined.
